(** * StockVision: the asynchronous refresh core

    A shallow embedding of the refresh core of the stock visualiser:
    the update scheduler and the refresh cycle of [stockvision.py]
    ([BackgroundUpdater]), the hand-off slot and the crossfade of
    [src/display/surface_manager.py] ([SurfaceManager]), the cache of
    [src/stock/stock_fetcher.py] ([StockFetcher]) and the generation step of
    [src/diffusion/simplified_pipeline.py] ([SimplifiedDiffusionPipeline]).
    Around the core: the prompt generator, the price colours of the overlay
    and of the chart, the [try] block of the fetcher ([YahooFinance]), the
    thread handling of main.py ([Main]) and the staged loop of
    main_fixed.py ([MainFixed]).

    Conventions of the embedding.
    - Python floats (clock readings, the update interval, the transition
      progress) are exact rationals [Q]; rounding is not modelled.
    - A Python object reference that may be [None] is an [option]; the
      objects tested for truth in the sources (PIL images, pygame surfaces,
      the snapshot dictionary, the collaborators) define neither [__bool__]
      nor an empty length, so the test [if x:] is the test [x is not None].
    - Calls into pygame, numpy, PIL, matplotlib, yfinance and diffusers are
      not re-implemented: their values are terms of free constructors and
      their success or failure is an input of the model.
    - Code that may raise returns a [result]; debug printing is left out.
    - Strings are the byte strings of Rocq; a draw of the module [random]
      is an input of the model.
    - A section of code run under [self.lock] is one atomic step. *)

From Stdlib Require Import ZArith QArith Qminmax Qround Qabs Bool List Lia Lqa Ascii String
  HexString.
Import ListNotations.

(** ** Exceptions *)

Inductive exn : Type :=
| RuntimeError (msg : string)
| ZeroDivisionError
| ValueError (msg : string)
| OtherError (msg : string).

Inductive result (A : Type) : Type :=
| Return (a : A)
| Raise (e : exn).

Arguments Return {A} a.
Arguments Raise {A} e.

Definition bind {A B : Type} (m : result A) (k : A -> result B) : result B :=
  match m with
  | Return a => k a
  | Raise e => Raise e
  end.

(** [try: m except Exception as e: h e] *)
Definition try_except {A : Type} (m : result A) (h : exn -> result A) : result A :=
  match m with
  | Return a => Return a
  | Raise e => h e
  end.

Notation "x <- m ;; k" := (bind m (fun x => k))
  (at level 61, m at next level, right associativity).

(** ** Rational comparisons as booleans *)

Definition Qltb (x y : Q) : bool := negb (Qle_bool y x).
Definition Qgeb (x y : Q) : bool := Qle_bool y x.

(** Python's [int(x)] on a float: truncation towards zero. *)
Definition py_int (x : Q) : Z := Z.quot (Qnum x) (Zpos (Qden x)).

(** Python's [min(a, b)]: [b] when [b < a], else [a]. *)
Definition py_min (a b : Q) : Q := if Qltb b a then b else a.

(** ** Configuration

    [src/config.py] is consumed through dictionary look-ups only; the
    options the core reads are the fields of this record. *)

Record Config : Type := {
  display_fps : Q;                      (* config.display['fps'] *)
  animation_transition_duration : Q;    (* config.animation['transition_duration'] *)
  render_width : Z;                     (* config.render['width'] *)
  render_height : Z;                    (* config.render['height'] *)
  stock_update_interval_minutes : Q;    (* config.stock['update_interval_minutes'] *)
  prompts_negative_prompt : string      (* config.prompts['negative_prompt'] *)
}.

(** [UPDATE_INTERVAL = config.stock['update_interval_minutes'] * 60] *)
Definition UPDATE_INTERVAL (config : Config) : Q :=
  stock_update_interval_minutes config * 60.

(** ** Images and surfaces *)

Module PIL.

Definition RGB : Type := (Z * Z * Z)%type.

(** An [H x W x 3] array of bytes, row by row. *)
Definition ndarray : Type := list (list RGB).

Inductive Image : Type :=
| solid (mode : string) (size : Z * Z) (color : RGB)
| fromarray (a : ndarray).

(** [Image.new(mode, size, color)]; PIL rejects a negative size. *)
Definition new (mode : string) (size : Z * Z) (color : RGB) : result Image :=
  if (fst size <? 0)%Z || (snd size <? 0)%Z
  then Raise (ValueError "Width and height must be >= 0")
  else Return (solid mode size color).

(** [img.size], as (width, height). *)
Definition size (img : Image) : Z * Z :=
  match img with
  | solid _ sz _ => sz
  | fromarray a =>
      (Z.of_nat (List.length (List.hd [] a)), Z.of_nat (List.length a))
  end.

(** [img.getpixel((x, y))] inside the image. *)
Definition getpixel (img : Image) (x y : nat) : option RGB :=
  match img with
  | solid _ (w, h) c =>
      if (Z.of_nat x <? w)%Z && (Z.of_nat y <? h)%Z then Some c else None
  | fromarray a =>
      match nth_error a y with
      | Some row => nth_error row x
      | None => None
      end
  end.

End PIL.

Module pygame.

Inductive Surface : Type :=
| Surface_new (size : Z * Z)
    (* pygame.Surface(size) *)
| make_surface (img : PIL.Image)
    (* pygame.surfarray.make_surface(np.array(img).swapaxes(0, 1)) *)
| smoothscale (s : Surface) (size : Z * Z)
    (* pygame.transform.smoothscale(s, size) *)
| set_alpha (s : Surface) (alpha : Z)
    (* s after s.set_alpha(alpha) *)
| blit (dest src : Surface).
    (* dest after dest.blit(src, (0, 0)) *)

End pygame.

(** ** The snapshot dictionary of [StockFetcher.fetch_data] *)

Record StockData : Type := {
  symbol : string;
  company_name : string;
  current_price : Q;
  price_change : Q;
  price_change_pct : Q
}.

(** ** [StockFetcher]: the data source and its cache *)

Module StockFetcher.

Record t : Type := {
  last_data : option StockData
}.

(** [__init__]: [self.last_data = None]. *)
Definition init : t := {| last_data := None |}.

(** [fetch_data].  [attempt] is the outcome of the [try] block up to the
    point where the result dictionary is built: the snapshot, or the
    exception raised by the network or by the empty history. *)
Definition fetch_data (attempt : result StockData) (self : t)
  : t * option StockData :=
  match attempt with
  | Return result =>
      (* self.last_data = result; return result *)
      ({| last_data := Some result |}, Some result)
  | Raise _ =>
      (* except Exception: if self.last_data: return self.last_data
                           return None *)
      match last_data self with
      | Some cached => (self, Some cached)
      | None => (self, None)
      end
  end.

End StockFetcher.

(** ** [SimplifiedDiffusionPipeline]: the image synthesiser *)

Module SimplifiedDiffusionPipeline.

(** The keyword arguments of the call [self.pipe(...)]. *)
Record PipeCall : Type := {
  call_prompt : string;
  call_negative_prompt : string;
  call_num_inference_steps : Z;
  call_guidance_scale : Q;
  call_seed : Z;
  call_height : Z;
  call_width : Z
}.

(** The loaded diffusers pipeline: a call yields [result.images] or raises. *)
Definition Pipe : Type := PipeCall -> result (list PIL.Image).

Record t : Type := {
  config : Config;
  debug : bool;
  device : string;
  pipe : option Pipe;
  inference_steps : Z;
  guidance_scale : Q
}.

(** What the surroundings decide in one call of [generate]: whether the
    debug copies can be written and which seed [torch.randint] draws. *)
Record Env : Type := {
  save_input : result unit;       (* image.save("debug/input_image_...") *)
  randint : result Z;             (* torch.randint(0, 2**32, (1,)).item() *)
  save_generated : result unit    (* generated_image.save("debug/generated_...") *)
}.

(** The body of the [try] block of [generate]. *)
Definition generation_step (self : t) (p : Pipe) (env : Env)
    (prompt : string) (width height : Z) : result (PIL.Image * Z) :=
  seed <- randint env ;;
  let negative_prompt := prompts_negative_prompt (config self) in
  let steps := inference_steps self in
  let steps := if String.eqb (device self) "cpu" then Z.min steps 20 else steps in
  images <- p {| call_prompt := prompt;
                 call_negative_prompt := negative_prompt;
                 call_num_inference_steps := steps;
                 call_guidance_scale := guidance_scale self;
                 call_seed := seed;
                 call_height := height;
                 call_width := width |} ;;
  _ <- (if debug self
        then match images with
             | generated_image :: _ => save_generated env
             | [] => Raise (OtherError "IndexError")
             end
        else Return tt) ;;
  match images with
  | image0 :: _ => Return (image0, seed)
  | [] => Raise (OtherError "IndexError")
  end.

(** The [except Exception] handler of [generate]. *)
Definition fallback (width height : Z) : result (PIL.Image * Z) :=
  fallback_image <- PIL.new "RGB" (width, height) (30, 30, 30)%Z ;;
  Return (fallback_image, 0%Z).

(** The debug block before the [try]: [if self.debug: if image: image.save(...)]. *)
Definition debug_dump (self : t) (env : Env) (image : option PIL.Image)
  : result unit :=
  if debug self
  then match image with
       | Some _ => save_input env
       | None => Return tt
       end
  else Return tt.

(** [generate(self, image, prompt)] *)
Definition generate (self : t) (env : Env) (image : option PIL.Image)
    (prompt : string) : result (PIL.Image * Z) :=
  match pipe self with
  | None => Raise (RuntimeError "Pipeline not initialized")
  | Some p =>
      let width := render_width (config self) in
      let height := render_height (config self) in
      _ <- debug_dump self env image ;;
      try_except (generation_step self p env prompt width height)
                 (fun _ => fallback width height)
  end.

End SimplifiedDiffusionPipeline.

(** ** [SurfaceManager]: the hand-off slot and the crossfade *)

Module SurfaceManager.

Record t : Type := {
  config : Config;
  display_width : Z;
  display_height : Z;
  background_surface : option pygame.Surface;
  previous_background : option pygame.Surface;
  transition_progress : Q;
  pending_background : option PIL.Image
}.

(** [__init__] *)
Definition init (cfg : Config) (display_width display_height : Z) : t :=
  {| config := cfg;
     display_width := display_width;
     display_height := display_height;
     background_surface := None;
     previous_background := None;
     transition_progress := 1;
     pending_background := None |}.

Definition set_pending (self : t) (p : option PIL.Image) : t :=
  {| config := config self;
     display_width := display_width self;
     display_height := display_height self;
     background_surface := background_surface self;
     previous_background := previous_background self;
     transition_progress := transition_progress self;
     pending_background := p |}.

Definition set_progress (self : t) (p : Q) : t :=
  {| config := config self;
     display_width := display_width self;
     display_height := display_height self;
     background_surface := background_surface self;
     previous_background := previous_background self;
     transition_progress := p;
     pending_background := pending_background self |}.

(** [queue_background_update(image_data)] *)
Definition queue_background_update (image_data : PIL.Image) (self : t) : t :=
  set_pending self (Some image_data).

Definition set_transition (self : t) (previous : option pygame.Surface)
    (progress : Q) : t :=
  {| config := config self;
     display_width := display_width self;
     display_height := display_height self;
     background_surface := background_surface self;
     previous_background := previous;
     transition_progress := progress;
     pending_background := pending_background self |}.

Definition set_background (self : t) (bg : option pygame.Surface) : t :=
  {| config := config self;
     display_width := display_width self;
     display_height := display_height self;
     background_surface := bg;
     previous_background := previous_background self;
     transition_progress := transition_progress self;
     pending_background := pending_background self |}.

(** [update_background(image_data)]; the debug copy written at the end in
    debug mode is left out. *)
Definition update_background (image_data : PIL.Image) (self : t) : t :=
  (* Save previous background for transitions *)
  let self :=
    match background_surface self with
    | Some bg => set_transition self (Some bg) 0
    | None => self
    end in
  set_background self (Some (pygame.make_surface image_data)).

(** [apply_pending_updates()] *)
Definition apply_pending_updates (self : t) : t :=
  match pending_background self with
  | Some pending => set_pending (update_background pending self) None
  | None => self
  end.

(** [get_display_background()]: the state after the call and the surface
    it returns, [None], or the exception of the division. *)
Definition get_display_background (self : t)
  : t * result (option pygame.Surface) :=
  match background_surface self with
  | None => (self, Return None)
  | Some bg =>
      let size := (display_width self, display_height self) in
      let settled := (self, Return (Some (pygame.smoothscale bg size))) in
      match previous_background self with
      | Some prev =>
          if Qltb (transition_progress self) 1 then
            let fps := display_fps (config self) in
            let duration := animation_transition_duration (config self) in
            if Qeq_bool (fps * duration) 0 then (self, Raise ZeroDivisionError)
            else
              let progress :=
                py_min 1 (transition_progress self + 1 / (fps * duration)) in
              let transition := pygame.Surface_new size in
              let prev_scaled := pygame.smoothscale prev size in
              let transition := pygame.blit transition prev_scaled in
              let current_scaled := pygame.smoothscale bg size in
              let current_scaled :=
                pygame.set_alpha current_scaled (py_int (255 * progress)) in
              let transition := pygame.blit transition current_scaled in
              (set_progress self progress, Return (Some transition))
          else settled
      | None => settled
      end
  end.

(** The render loop asking for [n] frames in a row. *)
Fixpoint frames (n : nat) (self : t) : t :=
  match n with
  | O => self
  | S n' => fst (get_display_background (frames n' self))
  end.

(** The operations that act on the display state. *)
Inductive Op : Type :=
| QueueBackgroundUpdate (image_data : PIL.Image)
| ApplyPendingUpdates
| UpdateBackground (image_data : PIL.Image)
| GetDisplayBackground.

Definition exec (self : t) (o : Op) : t :=
  match o with
  | QueueBackgroundUpdate image_data => queue_background_update image_data self
  | ApplyPendingUpdates => apply_pending_updates self
  | UpdateBackground image_data => update_background image_data self
  | GetDisplayBackground => fst (get_display_background self)
  end.

(** Without a previous background the display is fully transitioned. *)
Definition settled_inv (self : t) : Prop :=
  previous_background self = None -> transition_progress self = 1.

End SurfaceManager.

(** ** [BackgroundUpdater]: the scheduler and the refresh cycle *)

Module BackgroundUpdater.

(** The attributes of the updater itself.  The collaborators it refers to
    are shared objects and live in [World]; here is only whether the
    reference is set ([set_surface_manager], [set_stock_overlay]). *)
Record t : Type := {
  last_attempt : Q;
  is_updating : bool;
  update_thread : option nat;
  diffusion_enabled : bool;
  has_surface_manager : bool;
  has_stock_overlay : bool
}.

(** A worker thread started by [update_background]: its identity and
    whether the [try] part of [_do_update] has already run, the [finally]
    block being still to come. *)
Record Worker : Type := {
  tid : nat;
  body_done : bool
}.

(** The objects shared by the render loop and the workers. *)
Record World : Type := {
  config : Config;
  updater : t;
  stock_fetcher : StockFetcher.t;
  surface_manager : SurfaceManager.t;
  overlay_stock_data : option StockData;   (* StockInfoOverlay.stock_data *)
  workers : list Worker;                   (* threads not yet through finally *)
  next_tid : nat
}.

Definition set_updater (w : World) (u : t) : World :=
  {| config := config w; updater := u;
     stock_fetcher := stock_fetcher w;
     surface_manager := surface_manager w;
     overlay_stock_data := overlay_stock_data w;
     workers := workers w; next_tid := next_tid w |}.

Definition set_stock_fetcher (w : World) (f : StockFetcher.t) : World :=
  {| config := config w; updater := updater w;
     stock_fetcher := f;
     surface_manager := surface_manager w;
     overlay_stock_data := overlay_stock_data w;
     workers := workers w; next_tid := next_tid w |}.

Definition set_surface_manager (w : World) (s : SurfaceManager.t) : World :=
  {| config := config w; updater := updater w;
     stock_fetcher := stock_fetcher w;
     surface_manager := s;
     overlay_stock_data := overlay_stock_data w;
     workers := workers w; next_tid := next_tid w |}.

Definition set_overlay (w : World) (d : option StockData) : World :=
  {| config := config w; updater := updater w;
     stock_fetcher := stock_fetcher w;
     surface_manager := surface_manager w;
     overlay_stock_data := d;
     workers := workers w; next_tid := next_tid w |}.

Definition set_workers (w : World) (ws : list Worker) (next : nat) : World :=
  {| config := config w; updater := updater w;
     stock_fetcher := stock_fetcher w;
     surface_manager := surface_manager w;
     overlay_stock_data := overlay_stock_data w;
     workers := ws; next_tid := next |}.

(** The state main() builds before the loop: a fresh updater with both
    references set, a fresh fetcher and surface manager, no worker. *)
Definition init (cfg : Config) (display_width display_height : Z)
    (diffusion : bool) : World :=
  {| config := cfg;
     updater := {| last_attempt := 0;
                   is_updating := false;
                   update_thread := None;
                   diffusion_enabled := diffusion;
                   has_surface_manager := true;
                   has_stock_overlay := true |};
     stock_fetcher := StockFetcher.init;
     surface_manager := SurfaceManager.init cfg display_width display_height;
     overlay_stock_data := None;
     workers := [];
     next_tid := 0 |}.

(** [update_background()], the whole of it under [self.lock].
    [current_time] is the reading of [time.time()].  The boolean tells
    whether a thread was started. *)
Definition update_background (current_time : Q) (w : World) : World * bool :=
  let self := updater w in
  if is_updating self
     || Qltb (current_time - last_attempt self) (UPDATE_INTERVAL (config w))
  then (w, false)
  else
    let thread := next_tid w in
    let self' := {| last_attempt := current_time;
                    is_updating := true;
                    update_thread := Some thread;
                    diffusion_enabled := diffusion_enabled self;
                    has_surface_manager := has_surface_manager self;
                    has_stock_overlay := has_stock_overlay self |} in
    (set_workers (set_updater w self')
                 ({| tid := thread; body_done := false |} :: workers w)
                 (S thread),
     true).

(** [should_update()] *)
Definition should_update (now : Q) (w : World) : bool :=
  Qgeb (now - last_attempt (updater w)) (UPDATE_INTERVAL (config w)).

(** The [pygame.K_r] branch of the event loop of main():
    [background_updater.last_attempt = 0]. *)
Definition key_r (w : World) : World :=
  let self := updater w in
  set_updater w {| last_attempt := 0;
                   is_updating := is_updating self;
                   update_thread := update_thread self;
                   diffusion_enabled := diffusion_enabled self;
                   has_surface_manager := has_surface_manager self;
                   has_stock_overlay := has_stock_overlay self |}.

(** The periodic check of the loop of main():
    [if background_updater.should_update(): background_updater.update_background()],
    with the two clock readings [t1] and [t2]. *)
Definition periodic_check (t1 t2 : Q) (w : World) : World * bool :=
  if should_update t1 w then update_background t2 w else (w, false).

(** A forced trigger: the key handler, then the periodic check of the
    same iteration of the loop. *)
Definition forced_trigger (t1 t2 : Q) (w : World) : World * bool :=
  periodic_check t1 t2 (key_r w).

(** The gate of the loop of main.py, where the two conditions are read
    together under the lock:
    [not is_updating and (current_time - last_update_time) >= UPDATE_INTERVAL]. *)
Definition main_should_update (is_updating : bool)
    (current_time last_update_time interval : Q) : bool :=
  negb is_updating && Qgeb (current_time - last_update_time) interval.

(** What the collaborators do in one cycle: the outcome of the fetch and
    the behaviour of the chart renderer, of the prompt generator and of
    [self.diffusion_pipeline.generate]. *)
Record CycleEnv : Type := {
  fetch_attempt : result StockData;
  render_chart_array : StockData -> result PIL.ndarray;
  generate_prompt : StockData -> result string;
  generate : PIL.Image -> string -> result (PIL.Image * Z)
}.

(** [if self.surface_manager: self.surface_manager.queue_background_update(img)] *)
Definition queue (w : World) (img : PIL.Image) : World :=
  if has_surface_manager (updater w)
  then set_surface_manager w
         (SurfaceManager.queue_background_update img (surface_manager w))
  else w.

(** The [try] block of [_do_update]; [Raise] is what reaches the outer
    [except Exception], which only prints. *)
Definition do_update_try (env : CycleEnv) (w : World) : World * result unit :=
  let '(fetcher, stock_data) :=
    StockFetcher.fetch_data (fetch_attempt env) (stock_fetcher w) in
  let w := set_stock_fetcher w fetcher in
  match stock_data with
  | None => (w, Return tt)
  | Some stock_data =>
      match render_chart_array env stock_data with
      | Raise e => (w, Raise e)
      | Return chart_array =>
          let w := if has_stock_overlay (updater w)
                   then set_overlay w (Some stock_data) else w in
          if diffusion_enabled (updater w) then
            match (let chart_image := PIL.fromarray chart_array in
                   prompt <- generate_prompt env stock_data ;;
                   generate env chart_image prompt) with
            | Return (image, seed) => (queue w image, Return tt)
            | Raise e =>
                (* Fall back to using the chart directly *)
                (queue w (PIL.fromarray chart_array), Return tt)
            end
          else
            (* Use chart directly if AI is disabled *)
            (queue w (PIL.fromarray chart_array), Return tt)
      end
  end.

Definition is_worker (thread : nat) (k : Worker) : bool := Nat.eqb (tid k) thread.

(** The [finally] block of [_do_update], under [self.lock]; the thread
    ends with it. *)
Definition do_update_finally (thread : nat) (w : World) : World :=
  let self := updater w in
  let self' := {| last_attempt := last_attempt self;
                  is_updating := false;
                  update_thread := None;
                  diffusion_enabled := diffusion_enabled self;
                  has_surface_manager := has_surface_manager self;
                  has_stock_overlay := has_stock_overlay self |} in
  set_workers (set_updater w self')
              (filter (fun k => negb (is_worker thread k)) (workers w))
              (next_tid w).

(** [_do_update()], run by the thread [thread] from start to end. *)
Definition _do_update (thread : nat) (env : CycleEnv) (w : World) : World :=
  do_update_finally thread (fst (do_update_try env w)).

(** *** The interleavings of the render loop and the workers *)

Inductive Event : Type :=
| CallUpdateBackground (current_time : Q)   (* update_background() *)
| KeyR                                      (* the K_r handler *)
| WorkerTry (thread : nat) (env : CycleEnv) (* a worker runs its try block *)
| WorkerFinally (thread : nat)              (* a worker runs its finally block *)
| ApplyPendingUpdates                       (* surface_manager.apply_pending_updates() *)
| GetDisplayBackground.                     (* surface_manager.get_display_background() *)

Definition mark_done (thread : nat) (k : Worker) : Worker :=
  if is_worker thread k then {| tid := tid k; body_done := true |} else k.

(** One step; [None] when the event cannot happen in [w] (no such worker
    at that point of its code) or ends the program with an exception. *)
Definition step (w : World) (e : Event) : option World :=
  match e with
  | CallUpdateBackground current_time =>
      Some (fst (update_background current_time w))
  | KeyR => Some (key_r w)
  | WorkerTry thread env =>
      if existsb (fun k => is_worker thread k && negb (body_done k)) (workers w)
      then let w' := fst (do_update_try env w) in
           Some (set_workers w' (map (mark_done thread) (workers w')) (next_tid w'))
      else None
  | WorkerFinally thread =>
      if existsb (fun k => is_worker thread k && body_done k) (workers w)
      then Some (do_update_finally thread w)
      else None
  | ApplyPendingUpdates =>
      Some (set_surface_manager w
              (SurfaceManager.apply_pending_updates (surface_manager w)))
  | GetDisplayBackground =>
      match SurfaceManager.get_display_background (surface_manager w) with
      | (s, Return _) => Some (set_surface_manager w s)
      | (_, Raise _) => None
      end
  end.

Fixpoint run (w : World) (es : list Event) : option World :=
  match es with
  | [] => Some w
  | e :: es' =>
      match step w e with
      | Some w' => run w' es'
      | None => None
      end
  end.

(** The number of cycles in flight: started and not yet through [finally]. *)
Definition in_flight (w : World) : nat := List.length (workers w).

(** Either nothing is in flight and the flag is down, or exactly one
    worker exists and the flag is up. *)
Definition flight_inv (w : World) : Prop :=
  (workers w = [] /\ is_updating (updater w) = false)
  \/ (exists k, workers w = [k] /\ is_updating (updater w) = true).

End BackgroundUpdater.

(** ** [PromptGenerator]: the prompt for the synthesiser *)

Module PromptGenerator.

#[local] Open Scope string_scope.

Definition ghibli_characters : list string :=
  ["Totoro"; "Kodama forest spirits"; "No-Face"; "Jiji the cat"; "Kiki";
   "Howl"; "Calcifer"; "Ponyo"; "Haku the dragon"; "soot sprites";
   "Chihiro"; "Nausicaä"; "San"; "Princess Mononoke"; "Ashitaka"].

Definition ghibli_locations : list string :=
  ["a peaceful mountain village"; "a magical forest"; "a seaside town";
   "a floating castle"; "a spirit bathhouse"; "a witch's house";
   "an abandoned amusement park"; "a flying castle"; "a magical garden";
   "a mountain valley"; "a cozy cottage"; "a hidden forest grove"].

Definition ghibli_elements : list string :=
  ["river spirits"; "magical creatures"; "gentle giants"; "flying machines";
   "fluffy clouds"; "ancient magic"; "soft rainfall"; "cherry blossoms";
   "floating lanterns"; "glowing orbs"; "magical transformation";
   "windswept grass"; "flowing rivers"; "magical amulets"; "paper charms"].

Definition small_rise : list string :=
  ["gentle sunrise over"; "spring blooms in"; "soft morning light in";
   "budding flowers in"].

Definition medium_rise : list string :=
  ["soaring airship above"; "floating lanterns rising from";
   "magical transformation in"; "flying castle above"].

Definition large_rise : list string :=
  ["spectacular dragon flying over"; "magical explosion of light in";
   "triumphant heroes overlooking"; "majestic mountain peaks with"].

Definition small_fall : list string :=
  ["gentle rainfall over"; "autumn leaves falling in"; "peaceful dusk in";
   "light fog rolling through"].

Definition medium_fall : list string :=
  ["stormy weather approaching"; "character looking down from";
   "floating down a river through"; "descending staircase in"].

Definition large_fall : list string :=
  ["dramatic waterfall cascading down";
   "character falling through clouds above"; "abandoned ruins in";
   "mysterious deep valley with"].

Definition stable : list string :=
  ["tranquil scene in"; "peaceful day in"; "balanced harmony in";
   "quiet moment in"; "still waters reflecting"].

Definition no_data : list string :=
  ["peaceful Ghibli landscape"; "a vibrant Ghibli town";
   "magical Ghibli forest"; "a cozy Ghibli cottage"].

Definition ghibli_suffix : string :=
  "Studio Ghibli style, Miyazaki style, fantasy art".

(** The draws of the module [random] in one call of [generate_prompt]. *)
Record Random : Type := {
  base_draw : nat;        (* random.choice for the base prompt *)
  location_draw : nat;    (* random.choice(self.ghibli_locations) *)
  character_roll : Q;     (* random.random(), compared with 0.4 *)
  character_draw : nat;   (* random.choice(self.ghibli_characters) *)
  element_roll : Q;       (* random.random(), compared with 0.7 *)
  element_draw : nat      (* random.choice(self.ghibli_elements) *)
}.

(** [random.choice(seq)], the draw reduced to an index of [seq]. *)
Definition choice (draw : nat) (seq : list string) : string :=
  nth (draw mod List.length seq) seq "".

(** [_get_rising_prompt(magnitude)] *)
Definition _get_rising_prompt (draw : nat) (magnitude : Q) : string :=
  if Qltb magnitude 3 then choice draw small_rise
  else if Qltb magnitude 7 then choice draw medium_rise
  else choice draw large_rise.

(** [_get_falling_prompt(magnitude)] *)
Definition _get_falling_prompt (draw : nat) (magnitude : Q) : string :=
  if Qltb magnitude 3 then choice draw small_fall
  else if Qltb magnitude 7 then choice draw medium_fall
  else choice draw large_fall.

(** [_get_stable_prompt()] *)
Definition _get_stable_prompt (draw : nat) : string := choice draw stable.

(** The first part of [generate_prompt]: the base prompt. *)
Definition base_prompt (rand : Random) (stock_data : option StockData) : string :=
  match stock_data with
  | Some data =>
      let is_rising := Qltb 0 (price_change data) in
      let is_falling := Qltb (price_change data) 0 in
      let magnitude :=
        if is_rising || is_falling
        then py_min 10 (Qabs (price_change_pct data) / 2)
        else 0 in
      if is_rising then _get_rising_prompt (base_draw rand) magnitude
      else if is_falling then _get_falling_prompt (base_draw rand) magnitude
      else _get_stable_prompt (base_draw rand)
  | None => choice (base_draw rand) no_data
  end.

(** The list [prompt_elements] that [generate_prompt] joins. *)
Definition prompt_elements (rand : Random) (stock_data : option StockData)
  : list string :=
  let elements := [choice (location_draw rand) ghibli_locations] in
  let elements :=
    if Qltb (character_roll rand) 0.4
    then (elements ++ [choice (character_draw rand) ghibli_characters])%list
    else elements in
  let elements :=
    if Qltb (element_roll rand) 0.7
    then (elements ++ [choice (element_draw rand) ghibli_elements])%list
    else elements in
  ([base_prompt rand stock_data] ++ elements ++ [ghibli_suffix])%list.

(** [generate_prompt(stock_data)] *)
Definition generate_prompt (rand : Random) (stock_data : option StockData)
  : string :=
  String.concat ", " (prompt_elements rand stock_data).

End PromptGenerator.

(** ** [StockInfoOverlay]: the text panel over the background *)

Module StockInfoOverlay.

Record t : Type := {
  stock_data : option StockData;
  show_debug : bool
}.

(** [__init__] *)
Definition init : t := {| stock_data := None; show_debug := false |}.

(** [update_stock_info(stock_data)] *)
Definition update_stock_info (data : option StockData) (self : t) : t :=
  {| stock_data := data; show_debug := show_debug self |}.

(** [toggle_debug()] *)
Definition toggle_debug (self : t) : t :=
  {| stock_data := stock_data self; show_debug := negb (show_debug self) |}.

(** [_get_price_color()] *)
Definition _get_price_color (self : t) : PIL.RGB :=
  match stock_data self with
  | None => (255, 255, 255)%Z
  | Some data =>
      if Qltb 0 (price_change data) then (0, 255, 0)%Z
      else if Qltb (price_change data) 0 then (255, 0, 0)%Z
      else (255, 255, 255)%Z
  end.

(** The panels [draw] puts on the screen: none without data, the main
    panel, and the debug panel when switched on. *)
Inductive Panel : Type := MainInfo | DebugInfo.

Definition draw (self : t) : list Panel :=
  match stock_data self with
  | None => []
  | Some _ => MainInfo :: (if show_debug self then [DebugInfo] else [])
  end.

End StockInfoOverlay.

(** ** [ChartRenderer]: colours of the chart *)

Module ChartRenderer.

#[local] Open Scope string_scope.

(** [config.stock['chart_colors']], the entries the annotation reads. *)
Record ChartColors : Type := {
  up : PIL.RGB;
  down : PIL.RGB;
  neutral : PIL.RGB
}.

(** The format field [{:02x}] applied to an integer: lower-case
    hexadecimal digits, filled with a zero up to two characters, a minus
    sign in front of a negative number. *)
Definition format_02x (n : Z) : string :=
  match n with
  | Z0 => "00"
  | Zpos p =>
      let digits := HexString.Raw.of_pos p "" in
      if (String.length digits <? 2)%nat then "0" ++ digits else digits
  | Zneg p => "-" ++ HexString.Raw.of_pos p ""
  end.

(** [_rgb_to_hex(rgb)] *)
Definition _rgb_to_hex (rgb : PIL.RGB) : string :=
  let '(r, g, b) := rgb in
  "#" ++ format_02x r ++ format_02x g ++ format_02x b.

(** The colour of the price annotations in [render_chart_array]. *)
Definition annotation_color (chart_colors : ChartColors) (data : StockData)
  : string :=
  if Qltb 0 (price_change data) then _rgb_to_hex (up chart_colors)
  else if Qltb (price_change data) 0 then _rgb_to_hex (down chart_colors)
  else _rgb_to_hex (neutral chart_colors).

End ChartRenderer.

(** ** The [try] block of [StockFetcher.fetch_data] *)

Module YahooFinance.

(** A row of [ticker.history(period=chart_range)]. *)
Record Bar : Type := {
  Open : Q;
  High : Q;
  Low : Q;
  Close : Q
}.

(** The [try] block of [fetch_data], from the two answers of yfinance:
    the history, oldest row first, and [ticker.info.get('shortName')].
    [None] stands for a zero reference price, where the float quotient of
    the source is an infinity or a nan, which [Q] does not have. *)
Definition try_block (symbol : string) (history : result (list Bar))
    (shortName : result (option string)) : option (result StockData) :=
  match history with
  | Raise e => Some (Raise e)
  | Return hist_data =>
      match rev hist_data with
      | [] => Some (Raise (OtherError "IndexError"))   (* hist_data.index[-1] *)
      | latest :: before =>
          let current_price := Close latest in
          let open_price := Open latest in
          let reference :=
            match before with
            | previous :: _ => Close previous   (* len(hist_data) > 1 *)
            | [] => open_price
            end in
          if Qeq_bool reference 0 then None
          else
            let price_change := current_price - reference in
            let price_change_pct := (price_change / reference) * 100 in
            Some (name <- shortName ;;
                  Return {| symbol := symbol;
                            company_name := match name with
                                            | Some n => n
                                            | None => "NVIDIA"%string
                                            end;
                            current_price := current_price;
                            price_change := price_change;
                            price_change_pct := price_change_pct |})
      end
  end.

(** [fetch_data()] with its [try] block spelled out. *)
Definition fetch_data (symbol : string) (history : result (list Bar))
    (shortName : result (option string)) (self : StockFetcher.t)
  : option (StockFetcher.t * option StockData) :=
  match try_block symbol history shortName with
  | Some attempt => Some (StockFetcher.fetch_data attempt self)
  | None => None
  end.

End YahooFinance.

(** ** main.py: the loop that starts [update_visualization] threads *)

Module Main.

(** Where a thread running [update_visualization] stands: started and
    not yet at its first statement, past the block that raises the flag,
    past the [try] block. *)
Inductive Phase : Type := started | entered | body_done.

Record Worker : Type := {
  tid : nat;
  phase : Phase
}.

Record t : Type := {
  config : Config;
  last_update_time : Q;
  is_updating : bool;
  workers : list Worker;
  next_tid : nat;
  stock_fetcher : StockFetcher.t;
  surface_manager : SurfaceManager.t;
  stock_overlay : StockInfoOverlay.t
}.

Definition set_flag (s : t) (b : bool) (ws : list Worker) : t :=
  {| config := config s; last_update_time := last_update_time s;
     is_updating := b; workers := ws; next_tid := next_tid s;
     stock_fetcher := stock_fetcher s; surface_manager := surface_manager s;
     stock_overlay := stock_overlay s |}.

Definition set_last_update_time (s : t) (now : Q) : t :=
  {| config := config s; last_update_time := now;
     is_updating := is_updating s; workers := workers s;
     next_tid := next_tid s;
     stock_fetcher := stock_fetcher s; surface_manager := surface_manager s;
     stock_overlay := stock_overlay s |}.

Definition set_display (s : t) (f : StockFetcher.t) (m : SurfaceManager.t)
    (o : StockInfoOverlay.t) : t :=
  {| config := config s; last_update_time := last_update_time s;
     is_updating := is_updating s; workers := workers s;
     next_tid := next_tid s;
     stock_fetcher := f; surface_manager := m; stock_overlay := o |}.

(** [threading.Thread(target=update_visualization)], [daemon], [start()]. *)
Definition start_thread (s : t) : t :=
  {| config := config s; last_update_time := last_update_time s;
     is_updating := is_updating s;
     workers := {| tid := next_tid s; phase := started |} :: workers s;
     next_tid := S (next_tid s);
     stock_fetcher := stock_fetcher s; surface_manager := surface_manager s;
     stock_overlay := stock_overlay s |}.

(** The state when the loop is entered: the shared variables and the
    thread of the initial update. *)
Definition init (cfg : Config) (display_width display_height : Z) : t :=
  start_thread
    {| config := cfg; last_update_time := 0; is_updating := false;
       workers := []; next_tid := 0;
       stock_fetcher := StockFetcher.init;
       surface_manager := SurfaceManager.init cfg display_width display_height;
       stock_overlay := StockInfoOverlay.init |}.

(** The [pygame.K_r] branch: [if not is_updating:] start a thread. *)
Definition key_r (s : t) : t :=
  if negb (is_updating s) then start_thread s else s.

(** The periodic check of the loop, [current_time] being [time.time()]. *)
Definition loop_check (current_time : Q) (s : t) : t :=
  let should_update :=
    BackgroundUpdater.main_should_update (is_updating s) current_time
      (last_update_time s) (UPDATE_INTERVAL (config s)) in
  if should_update
  then start_thread (set_last_update_time s current_time)
  else s.

Definition set_phase (thread : nat) (p : Phase) (k : Worker) : Worker :=
  if Nat.eqb (tid k) thread then {| tid := tid k; phase := p |} else k.

(** The first block of [update_visualization]:
    [with update_lock: is_updating = True]. *)
Definition worker_enter (thread : nat) (s : t) : t :=
  set_flag s true (map (set_phase thread entered) (workers s)).

(** The collaborators in one run of [update_visualization]. *)
Record Env : Type := {
  fetch_attempt : result StockData;
  render_chart : StockData -> result PIL.ndarray;
  generate_prompt : StockData -> result string;
  generate : PIL.ndarray -> string -> result (PIL.Image * Z)
}.

(** The [try] block of [update_visualization]; [Raise] is what reaches
    [except Exception], which only prints. *)
Definition update_try (env : Env) (s : t) : t * result unit :=
  let '(fetcher, stock_data) :=
    StockFetcher.fetch_data (fetch_attempt env) (stock_fetcher s) in
  let s := set_display s fetcher (surface_manager s) (stock_overlay s) in
  match stock_data with
  | None => (s, Return tt)
  | Some stock_data =>
      match (chart_surface <- render_chart env stock_data ;;
             prompt <- generate_prompt env stock_data ;;
             generate env chart_surface prompt) with
      | Raise e => (s, Raise e)
      | Return (image, seed) =>
          (set_display s (stock_fetcher s)
             (SurfaceManager.update_background image (surface_manager s))
             (StockInfoOverlay.update_stock_info (Some stock_data)
                (stock_overlay s)),
           Return tt)
      end
  end.

Definition worker_body (thread : nat) (env : Env) (s : t) : t :=
  let s' := fst (update_try env s) in
  set_flag s' (is_updating s') (map (set_phase thread body_done) (workers s')).

(** The [finally] block: [with update_lock: is_updating = False]; the
    thread ends. *)
Definition worker_finally (thread : nat) (s : t) : t :=
  set_flag s false
    (filter (fun k => negb (Nat.eqb (tid k) thread)) (workers s)).

(** Threads started and not yet through [finally]. *)
Definition in_flight (s : t) : nat := List.length (workers s).

(** [n] presses of the refresh key in a row. *)
Fixpoint presses (n : nat) (s : t) : t :=
  match n with
  | O => s
  | S n' => key_r (presses n' s)
  end.

End Main.

(** ** main_fixed.py: one stage of the update per tick of the loop *)

Module MainFixed.

(** The values [update_stage] takes. *)
Inductive Stage : Type :=
| idle | fetch_data | render_chart | generate_prompt | generate_image | done.

Definition is_idle (st : Stage) : bool :=
  match st with idle => true | _ => false end.

(** The variables of main(): the program arguments, the timing state, the
    variables of the staged update and the components.  [chart_surface]
    holds the array of which [render_chart] made the surface. *)
Record t : Type := {
  config : Config;
  debug : bool;                         (* args.debug *)
  no_ai : bool;                         (* args.no_ai *)
  ai_loaded : bool;                     (* prompt_generator is bound *)
  running : bool;
  last_update_time : Q;
  is_updating : bool;
  update_stage : Stage;
  stock_data : option StockData;
  chart_surface : option PIL.ndarray;
  prompt : option string;
  generated_image : option PIL.Image;
  stock_fetcher : StockFetcher.t;
  surface_manager : SurfaceManager.t;
  stock_overlay : StockInfoOverlay.t
}.

(** The state when the loop is entered. *)
Definition init (cfg : Config) (debug no_ai : bool)
    (display_width display_height : Z) : t :=
  {| config := cfg; debug := debug; no_ai := no_ai;
     ai_loaded := negb no_ai; running := true;
     last_update_time := 0; is_updating := false; update_stage := idle;
     stock_data := None; chart_surface := None; prompt := None;
     generated_image := None;
     stock_fetcher := StockFetcher.init;
     surface_manager := SurfaceManager.init cfg display_width display_height;
     stock_overlay := StockInfoOverlay.init |}.

(** Assignments to the timing state. *)
Definition set_timing (s : t) (updating : bool) (stage : Stage) (last : Q) : t :=
  {| config := config s; debug := debug s; no_ai := no_ai s;
     ai_loaded := ai_loaded s; running := running s;
     last_update_time := last; is_updating := updating; update_stage := stage;
     stock_data := stock_data s; chart_surface := chart_surface s;
     prompt := prompt s; generated_image := generated_image s;
     stock_fetcher := stock_fetcher s; surface_manager := surface_manager s;
     stock_overlay := stock_overlay s |}.

(** Assignments to the program arguments and to [running]. *)
Definition set_args (s : t) (no_ai' loaded run : bool) : t :=
  {| config := config s; debug := debug s; no_ai := no_ai';
     ai_loaded := loaded; running := run;
     last_update_time := last_update_time s; is_updating := is_updating s;
     update_stage := update_stage s;
     stock_data := stock_data s; chart_surface := chart_surface s;
     prompt := prompt s; generated_image := generated_image s;
     stock_fetcher := stock_fetcher s; surface_manager := surface_manager s;
     stock_overlay := stock_overlay s |}.

(** Assignments to the variables of the staged update. *)
Definition set_staged (s : t) (data : option StockData)
    (chart : option PIL.ndarray) (p : option string)
    (image : option PIL.Image) : t :=
  {| config := config s; debug := debug s; no_ai := no_ai s;
     ai_loaded := ai_loaded s; running := running s;
     last_update_time := last_update_time s; is_updating := is_updating s;
     update_stage := update_stage s;
     stock_data := data; chart_surface := chart; prompt := p;
     generated_image := image;
     stock_fetcher := stock_fetcher s; surface_manager := surface_manager s;
     stock_overlay := stock_overlay s |}.

(** Changes of the components. *)
Definition set_components (s : t) (f : StockFetcher.t) (m : SurfaceManager.t)
    (o : StockInfoOverlay.t) : t :=
  {| config := config s; debug := debug s; no_ai := no_ai s;
     ai_loaded := ai_loaded s; running := running s;
     last_update_time := last_update_time s; is_updating := is_updating s;
     update_stage := update_stage s;
     stock_data := stock_data s; chart_surface := chart_surface s;
     prompt := prompt s; generated_image := generated_image s;
     stock_fetcher := f; surface_manager := m; stock_overlay := o |}.

Definition set_stage (s : t) (stage : Stage) : t :=
  set_timing s (is_updating s) stage (last_update_time s).

(** The events the loop reacts to.  [K_r] carries the reading of
    [time.time()], [K_n] the outcome of constructing the prompt generator
    and the pipeline, should the handler construct them. *)
Inductive Event : Type :=
| QUIT
| K_ESCAPE
| K_f
| K_r (now : Q)
| K_n (load : result unit)
| OtherEvent.

(** The body of [for event in pygame.event.get()]. *)
Definition handle_event (s : t) (e : Event) : result t :=
  match e with
  | QUIT | K_ESCAPE => Return (set_args s (no_ai s) (ai_loaded s) false)
  | K_f =>
      Return (if debug s
              then set_components s (stock_fetcher s) (surface_manager s)
                     (StockInfoOverlay.toggle_debug (stock_overlay s))
              else s)
  | K_r now =>
      Return (if negb (is_updating s)
              then set_timing s true fetch_data now
              else s)
  | K_n load =>
      if negb (is_updating s) then
        let no_ai' := negb (no_ai s) in
        if no_ai' then Return (set_args s no_ai' (ai_loaded s) (running s))
        else if negb (ai_loaded s)
             then _ <- load ;; Return (set_args s no_ai' true (running s))
             else Return (set_args s no_ai' (ai_loaded s) (running s))
      else Return s
  | OtherEvent => Return s
  end.

Fixpoint handle_events (s : t) (es : list Event) : result t :=
  match es with
  | [] => Return s
  | e :: es' => s' <- handle_event s e ;; handle_events s' es'
  end.

(** "Check if it's time for an update". *)
Definition periodic_check (current_time : Q) (s : t) : t :=
  if negb (is_updating s)
     && Qgeb (current_time - last_update_time s) (UPDATE_INTERVAL (config s))
  then set_timing s true fetch_data current_time
  else s.

(** The collaborators in one tick. *)
Record Env : Type := {
  do_fetch : result StockData;
  do_render_chart : option StockData -> result PIL.ndarray;
  do_generate_prompt : option StockData -> result string;
  do_generate : option PIL.ndarray -> option string -> result (PIL.Image * Z)
}.

(** The [try] block that processes the current stage. *)
Definition stage_try (env : Env) (s : t) : result t :=
  match update_stage s with
  | fetch_data =>
      let '(fetcher, data) :=
        StockFetcher.fetch_data (do_fetch env) (stock_fetcher s) in
      let s := set_components s fetcher (surface_manager s) (stock_overlay s) in
      let s := set_staged s data (chart_surface s) (prompt s)
                 (generated_image s) in
      Return (set_stage s (match data with
                           | Some _ => render_chart
                           | None => done
                           end))
  | render_chart =>
      chart <- do_render_chart env (stock_data s) ;;
      let s := set_staged s (stock_data s) (Some chart) (prompt s)
                 (generated_image s) in
      let s := set_components s (stock_fetcher s) (surface_manager s)
                 (StockInfoOverlay.update_stock_info (stock_data s)
                    (stock_overlay s)) in
      if no_ai s then
        let chart_image := PIL.fromarray chart in
        let s := set_components s (stock_fetcher s)
                   (SurfaceManager.update_background chart_image
                      (surface_manager s))
                   (stock_overlay s) in
        Return (set_stage s done)
      else Return (set_stage s generate_prompt)
  | generate_prompt =>
      if ai_loaded s then
        p <- do_generate_prompt env (stock_data s) ;;
        let s := set_staged s (stock_data s) (chart_surface s) (Some p)
                   (generated_image s) in
        Return (set_stage s generate_image)
      else Raise (OtherError "UnboundLocalError")
  | generate_image =>
      if ai_loaded s then
        r <- do_generate env (chart_surface s) (prompt s) ;;
        let '(image, seed) := r in
        let s := set_staged s (stock_data s) (chart_surface s) (prompt s)
                   (Some image) in
        let s := set_components s (stock_fetcher s)
                   (SurfaceManager.update_background image (surface_manager s))
                   (stock_overlay s) in
        Return (set_stage s done)
      else Raise (OtherError "UnboundLocalError")
  | done => Return (set_timing s false idle (last_update_time s))
  | idle => Return s
  end.

(** "If we're updating, process the current stage", with its handler. *)
Definition process_stage (env : Env) (s : t) : t :=
  if is_updating s then
    match stage_try env s with
    | Return s' => s'
    | Raise _ => set_timing s false idle (last_update_time s)
    end
  else s.

(** The guard of "Regular rendering". *)
Definition renders (s : t) : bool :=
  negb (is_updating s) || negb (is_idle (update_stage s)).

(** "Regular rendering": the frame is asked of the surface manager. *)
Definition render (s : t) : result t :=
  if renders s then
    match SurfaceManager.get_display_background (surface_manager s) with
    | (m, Return _) =>
        Return (set_components s (stock_fetcher s) m (stock_overlay s))
    | (_, Raise e) => Raise e
    end
  else Return s.

(** What one iteration of the loop is given. *)
Record Tick : Type := {
  events : list Event;
  current_time : Q;
  env : Env
}.

(** One iteration of [while running]. *)
Definition tick (k : Tick) (s : t) : result t :=
  s <- handle_events s (events k) ;;
  let s := periodic_check (current_time k) s in
  let s := process_stage (env k) s in
  render s.

(** The loop over the iterations given, as long as [running] holds. *)
Fixpoint loop (ks : list Tick) (s : t) : result t :=
  match ks with
  | [] => Return s
  | k :: ks' =>
      if running s then s' <- tick k s ;; loop ks' s' else Return s
  end.

(** The stages still to go. *)
Definition rank (st : Stage) : nat :=
  match st with
  | idle => 0 | done => 1 | generate_image => 2 | generate_prompt => 3
  | render_chart => 4 | fetch_data => 5
  end.

(** The flag is up exactly in the stages other than [idle]. *)
Definition stage_inv (s : t) : Prop :=
  is_updating s = negb (is_idle (update_stage s)).

End MainFixed.

(** ** Sample inputs *)

Definition sample_config : Config :=
  {| display_fps := 30;
     animation_transition_duration := 2;
     render_width := 512;
     render_height := 512;
     stock_update_interval_minutes := 5;
     prompts_negative_prompt := "blurry" |}.

Definition sample_data : StockData :=
  {| symbol := "NVDA"; company_name := "NVIDIA";
     current_price := 100; price_change := 1; price_change_pct := 1 |}.

Definition sample_chart : PIL.ndarray := [[(1, 2, 3)%Z]].

Definition sample_image : PIL.Image := PIL.fromarray [[(9, 9, 9)%Z]].

(** A cycle in which every collaborator succeeds. *)
Definition sample_env : BackgroundUpdater.CycleEnv :=
  {| BackgroundUpdater.fetch_attempt := Return sample_data;
     BackgroundUpdater.render_chart_array := fun _ => Return sample_chart;
     BackgroundUpdater.generate_prompt := fun _ => Return "a vibrant Ghibli town"%string;
     BackgroundUpdater.generate := fun _ _ => Return (sample_image, 7%Z) |}.

Definition sample_world : BackgroundUpdater.World :=
  BackgroundUpdater.init sample_config 1920 1080 true.

(** The world with a cycle in flight, started at time 1000. *)
Definition busy_world : BackgroundUpdater.World :=
  fst (BackgroundUpdater.update_background 1000 sample_world).

Section DisplaySamples.

Import SurfaceManager.

Definition sample_manager : t := init sample_config 1920 1080.


End DisplaySamples.

Section SynthesiserSamples.

Import SimplifiedDiffusionPipeline.

(** A pipeline whose call fails (out of memory, say). *)
Definition failing_pipe : Pipe := fun _ => Raise (OtherError "CUDA out of memory").

Definition sample_pipeline : t :=
  {| config := sample_config; debug := false; device := "cuda";
     pipe := Some failing_pipe; inference_steps := 10; guidance_scale := 7.5 |}.

Definition sample_gen_env : Env :=
  {| save_input := Return tt; randint := Return 42%Z; save_generated := Return tt |}.

End SynthesiserSamples.

Section CycleSamples.

Import BackgroundUpdater.


(** A cycle whose fetch raises. *)
Definition fetch_fails_env : CycleEnv :=
  {| fetch_attempt := Raise (OtherError "ConnectionError");
     render_chart_array := fun _ => Return sample_chart;
     generate_prompt := fun _ => Return "a vibrant Ghibli town"%string;
     generate := fun _ _ => Return (sample_image, 7%Z) |}.

(** The busy world with a snapshot already cached. *)
Definition cached_world : World :=
  set_stock_fetcher busy_world {| StockFetcher.last_data := Some sample_data |}.

End CycleSamples.

(** *** Inputs for the further properties *)

Section ExtraSamples.

Import BackgroundUpdater.

(** The world of a run without image generation, a cycle in flight. *)
Definition chart_only_world : World :=
  fst (update_background 1000 (init sample_config 1920 1080 false)).

(** A cycle whose chart renderer raises. *)
Definition render_fails_env : CycleEnv :=
  {| fetch_attempt := Return sample_data;
     render_chart_array := fun _ => Raise (OtherError "MemoryError");
     generate_prompt := fun _ => Return "a vibrant Ghibli town"%string;
     generate := fun _ _ => Return (sample_image, 7%Z) |}.

(** A cycle whose synthesiser is the simplified pipeline. *)
Definition pipeline_env (self : SimplifiedDiffusionPipeline.t)
    (genv : SimplifiedDiffusionPipeline.Env) (fetch : result StockData)
    (render : StockData -> result PIL.ndarray)
    (prompt : StockData -> result string) : CycleEnv :=
  {| fetch_attempt := fetch;
     render_chart_array := render;
     generate_prompt := prompt;
     generate := fun chart_image p =>
                   SimplifiedDiffusionPipeline.generate self genv
                     (Some chart_image) p |}.

End ExtraSamples.

Section SynthesiserExtraSamples.

Import SimplifiedDiffusionPipeline.

(** A pipeline that produces an image. *)
Definition working_pipe : Pipe := fun _ => Return [sample_image].

(** The same in debug mode, in a directory without [debug/]. *)
Definition debug_pipeline : t :=
  {| config := sample_config; debug := true; device := "cpu";
     pipe := Some working_pipe; inference_steps := 50; guidance_scale := 7.5 |}.

Definition unwritable_env : Env :=
  {| save_input := Raise (OtherError "FileNotFoundError");
     randint := Return 42%Z;
     save_generated := Raise (OtherError "FileNotFoundError") |}.

End SynthesiserExtraSamples.

(** The draws of one prompt. *)
Definition sample_random : PromptGenerator.Random :=
  {| PromptGenerator.base_draw := 5;
     PromptGenerator.location_draw := 13;
     PromptGenerator.character_roll := 0.3;
     PromptGenerator.character_draw := 11;
     PromptGenerator.element_roll := 0.9;
     PromptGenerator.element_draw := 0 |}.

(** A snapshot of a day with a fall of 17 percent. *)
Definition crash_data : StockData :=
  {| symbol := "NVDA"; company_name := "NVIDIA";
     current_price := 83; price_change := -17; price_change_pct := -17 |}.

(** The two hexadecimal digits of a byte, and their value read back. *)
Definition byte_field_ok (n : nat) : bool :=
  match ChartRenderer.format_02x (Z.of_nat n) with
  | String a (String b EmptyString) =>
      N.eqb (HexString.Raw.to_N (String a (String b EmptyString)) 0) (N.of_nat n)
  | _ => false
  end.



Section StagedSamples.

Import MainFixed.

Definition sample_stage_env : Env :=
  {| do_fetch := Return sample_data;
     do_render_chart := fun _ => Return sample_chart;
     do_generate_prompt := fun _ => Return "a vibrant Ghibli town"%string;
     do_generate := fun _ _ => Return (sample_image, 7%Z) |}.

Definition sample_tick (es : list Event) (now : Q) : Tick :=
  {| events := es; current_time := now; env := sample_stage_env |}.

(** The staged loop when it is entered, and after an iteration in which
    the refresh key was pressed. *)
Definition staged_world : t := init sample_config false false 1920 1080.

Definition started_world : t :=
  match loop [sample_tick [K_r 10] 11] staged_world with
  | Return s => s
  | Raise _ => staged_world
  end.

End StagedSamples.

(** A run of [update_visualization] whose synthesiser raises. *)
Definition main_fails_env : Main.Env :=
  {| Main.fetch_attempt := Return sample_data;
     Main.render_chart := fun _ => Return sample_chart;
     Main.generate_prompt := fun _ => Return "a vibrant Ghibli town"%string;
     Main.generate := fun _ _ => Raise (RuntimeError "CUDA out of memory") |}.

(** The display state reached from a fresh surface manager by any sequence
    of its operations, [fps * duration] being positive. *)
Definition display_inv (cfg : Config) (s : SurfaceManager.t) : Prop :=
  SurfaceManager.config s = cfg
  /\ 0 <= SurfaceManager.transition_progress s <= 1
  /\ (SurfaceManager.background_surface s = None ->
      SurfaceManager.previous_background s = None).

(** * Properties *)

(** ** Comparisons *)

Lemma Qltb_lt (x y : Q) : Qltb x y = true <-> x < y.
Proof.
  unfold Qltb. rewrite negb_true_iff. split; intro H.
  - apply Qnot_le_lt. intro Hle. apply Qle_bool_iff in Hle. congruence.
  - destruct (Qle_bool y x) eqn:E; [|reflexivity].
    apply Qle_bool_iff in E. exfalso. exact (Qlt_not_le _ _ H E).
Qed.

Lemma Qltb_ge (x y : Q) : Qltb x y = false <-> y <= x.
Proof.
  unfold Qltb. rewrite negb_false_iff. apply Qle_bool_iff.
Qed.

Lemma Qgeb_le (x y : Q) : Qgeb x y = true <-> y <= x.
Proof. unfold Qgeb. apply Qle_bool_iff. Qed.

(** ** The scheduler *)

Section Scheduler.

Import BackgroundUpdater.


Lemma queue_frame (w : World) (img : PIL.Image) :
  updater (queue w img) = updater w /\ workers (queue w img) = workers w
  /\ next_tid (queue w img) = next_tid w.
Proof. unfold queue. destruct (has_surface_manager (updater w)); auto. Qed.

Lemma do_update_try_frame (env : CycleEnv) (w : World) :
  updater (fst (do_update_try env w)) = updater w
  /\ workers (fst (do_update_try env w)) = workers w.
Proof.
  unfold do_update_try.
  destruct (StockFetcher.fetch_data _ _) as [f [d|]]; cbn; auto.
  destruct (render_chart_array env d) as [arr|e]; cbn; auto.
  set (w1 := if has_stock_overlay _ then _ else _).
  assert (H1 : updater w1 = updater w /\ workers w1 = workers w).
  { subst w1. destruct (has_stock_overlay _); cbn; auto. }
  destruct H1 as [Hu Hw].
  destruct (diffusion_enabled (updater w1)).
  - destruct (bind _ _) as [[image seed]|e]; cbn;
      rewrite <- Hu, <- Hw; split; apply queue_frame.
  - cbn. rewrite <- Hu, <- Hw; split; apply queue_frame.
Qed.

Lemma update_background_busy (now : Q) (w : World) :
  is_updating (updater w) = true -> update_background now w = (w, false).
Proof. intro H. unfold update_background. rewrite H. reflexivity. Qed.

Lemma update_background_started (now : Q) (w w' : World) :
  update_background now w = (w', true) ->
  is_updating (updater w) = false
  /\ UPDATE_INTERVAL (config w) <= now - last_attempt (updater w)
  /\ is_updating (updater w') = true
  /\ last_attempt (updater w') = now
  /\ config w' = config w
  /\ workers w' = {| tid := next_tid w; body_done := false |} :: workers w.
Proof.
  unfold update_background.
  destruct (is_updating (updater w)) eqn:Hu; cbn; [discriminate|].
  destruct (Qltb _ _) eqn:Ht; [discriminate|].
  intro H. injection H as <-. apply Qltb_ge in Ht. cbn. auto 10.
Qed.

Lemma flight_inv_init cfg dw dh diff : flight_inv (init cfg dw dh diff).
Proof. left. split; reflexivity. Qed.

Lemma flight_inv_step (w w' : World) (e : Event) :
  flight_inv w -> step w e = Some w' -> flight_inv w'.
Proof.
  intros Hinv Hstep. destruct e as [now| |thread env|thread| |]; cbn in Hstep.
  - injection Hstep as <-.
    destruct (update_background now w) as [w1 b] eqn:E. destruct b; cbn.
    + apply update_background_started in E.
      destruct E as (Hidle & _ & Hup & _ & _ & Hws).
      destruct Hinv as [[Hnil _]|[k [_ Hbusy]]]; [|congruence].
      right. eexists. rewrite Hws, Hnil. auto.
    + unfold update_background in E.
      destruct (_ || _); [|discriminate]. injection E as <-. exact Hinv.
  - injection Hstep as <-. exact Hinv.
  - destruct (existsb _ _); [|discriminate]. injection Hstep as <-.
    destruct (do_update_try_frame env w) as [Hu Hw].
    unfold flight_inv; cbn. rewrite Hu, Hw.
    destruct Hinv as [[Hnil Hidle]|[k [Hone Hbusy]]].
    + left. rewrite Hnil. auto.
    + right. rewrite Hone. cbn. eauto.
  - destruct (existsb _ _) eqn:Hex; [|discriminate]. injection Hstep as <-.
    left. cbn. split; [|reflexivity].
    destruct Hinv as [[Hnil _]|[k [Hone _]]].
    + rewrite Hnil in Hex. discriminate.
    + rewrite Hone in *. cbn in Hex. rewrite orb_false_r in Hex.
      apply andb_true_iff in Hex as [Hk _]. cbn. rewrite Hk. reflexivity.
  - injection Hstep as <-. exact Hinv.
  - destruct (SurfaceManager.get_display_background _) as [s [r|x]];
      [|discriminate].
    injection Hstep as <-. exact Hinv.
Qed.

Lemma flight_inv_run (es : list Event) :
  forall w w', flight_inv w -> run w es = Some w' -> flight_inv w'.
Proof.
  induction es as [|e es IH]; intros w w' Hinv Hrun; cbn in Hrun.
  - injection Hrun as <-. exact Hinv.
  - destruct (step w e) as [w1|] eqn:Hs; [|discriminate].
    eapply IH; [|exact Hrun]. eapply flight_inv_step; eauto.
Qed.

(** A worker that runs its [try] block and then its [finally] block is
    [_do_update] run from start to end. *)

Lemma filter_mark_done (thread : nat) (ws : list Worker) :
  filter (fun k => negb (is_worker thread k)) (map (mark_done thread) ws)
  = filter (fun k => negb (is_worker thread k)) ws.
Proof.
  induction ws as [|k ws IH]; [reflexivity|].
  cbn [map filter]. rewrite IH.
  assert (Hk : is_worker thread (mark_done thread k) = is_worker thread k).
  { unfold mark_done. destruct (is_worker thread k) eqn:E; [exact E | exact E]. }
  rewrite Hk. destruct (is_worker thread k) eqn:E; cbn; [reflexivity|].
  unfold mark_done. rewrite E. reflexivity.
Qed.

Lemma existsb_mark_done (thread : nat) (ws : list Worker) :
  existsb (fun k => is_worker thread k && negb (body_done k)) ws = true ->
  existsb (fun k => is_worker thread k && body_done k)
          (map (mark_done thread) ws) = true.
Proof.
  induction ws as [|k ws IH]; cbn; [discriminate|].
  intro H. apply orb_true_iff in H as [H|H].
  - apply andb_true_iff in H as [Hk _].
    assert (Hm : mark_done thread k = {| tid := tid k; body_done := true |}).
    { unfold mark_done. rewrite Hk. reflexivity. }
    rewrite Hm. unfold is_worker in *. cbn. rewrite Hk. reflexivity.
  - rewrite (IH H). apply orb_true_r.
Qed.

Lemma run_worker (thread : nat) (env : CycleEnv) (w : World) :
  existsb (fun k => is_worker thread k && negb (body_done k)) (workers w) = true ->
  run w [WorkerTry thread env; WorkerFinally thread]
  = Some (_do_update thread env w).
Proof.
  intro H. cbn. rewrite H. cbn.
  destruct (do_update_try_frame env w) as [_ Hw].
  rewrite Hw, (existsb_mark_done thread (workers w) H).
  unfold _do_update, do_update_finally, set_workers, set_updater. cbn.
  rewrite filter_mark_done, Hw. reflexivity.
Qed.

End Scheduler.

Section SchedulerClaims.

Import BackgroundUpdater.

(** C1 (single-flight).  In every state the render loop and the workers
    can reach from the initial one, by any interleaving of calls of
    [update_background] (periodic or forced), key presses, worker bodies
    and worker [finally] blocks, at most one cycle is in flight; the flag
    [is_updating] is up exactly when one is; and a call of
    [update_background] that starts a cycle finds none in flight, that is,
    every earlier started cycle has already run its [finally] block. *)
Theorem single_flight :
  forall cfg dw dh diff (es : list Event) (w : World),
    run (init cfg dw dh diff) es = Some w ->
    (in_flight w <= 1)%nat
    /\ (is_updating (updater w) = true <-> in_flight w = 1%nat)
    /\ (forall now w', update_background now w = (w', true) ->
          in_flight w = 0%nat /\ in_flight w' = 1%nat).
Proof.
  intros cfg dw dh diff es w Hrun.
  assert (Hinv : flight_inv w).
  { eapply flight_inv_run; [apply flight_inv_init | exact Hrun]. }
  unfold in_flight.
  destruct Hinv as [[Hnil Hidle]|[k [Hone Hbusy]]].
  - rewrite Hnil, Hidle. cbn. repeat split; try lia; try discriminate.
    apply update_background_started in H as (_ & _ & _ & _ & _ & Hws).
    rewrite Hws, Hnil. reflexivity.
  - rewrite Hone, Hbusy. cbn. repeat split; try lia; try reflexivity;
      apply update_background_started in H as (Hidle & _); congruence.
Qed.

Lemma single_flight_witness :
  exists w,
    run sample_world
        [CallUpdateBackground 1000; CallUpdateBackground 2000; KeyR;
         CallUpdateBackground 2001; WorkerTry 0 sample_env;
         CallUpdateBackground 2002; WorkerFinally 0;
         CallUpdateBackground 2003] = Some w
    /\ (in_flight w <= 1)%nat.
Proof.
  eexists. split.
  - reflexivity.
  - eapply (single_flight sample_config 1920 1080 true
              [CallUpdateBackground 1000; CallUpdateBackground 2000; KeyR;
               CallUpdateBackground 2001; WorkerTry 0 sample_env;
               CallUpdateBackground 2002; WorkerFinally 0;
               CallUpdateBackground 2003]).
    reflexivity.
Defined.

(** C3 (periodic gating), as the code has it.  [should_update] compares
    the clock with [last_attempt] only and does not read [is_updating];
    the flag is tested by [update_background], so that the periodic check
    of the loop ([should_update], then [update_background], the clock not
    running backwards in between) starts a cycle exactly when none is in
    flight and the interval has elapsed, which is also the gate of the
    loop of main.py.  With a positive interval [should_update] is false at
    the instant of a successful start. *)
Theorem periodic_gating :
  forall (w : World) (t1 t2 : Q),
    t1 <= t2 ->
    (should_update t1 w = true <->
       UPDATE_INTERVAL (config w) <= t1 - last_attempt (updater w))
    /\ (snd (periodic_check t1 t2 w) = true <->
          is_updating (updater w) = false
          /\ UPDATE_INTERVAL (config w) <= t1 - last_attempt (updater w))
    /\ (forall (b : bool) (l i : Q),
          main_should_update b t1 l i = true <-> b = false /\ i <= t1 - l)
    /\ (0 < UPDATE_INTERVAL (config w) ->
          forall w', update_background t1 w = (w', true) ->
                     should_update t1 w' = false).
Proof.
  intros w t1 t2 Ht.
  assert (Hs : should_update t1 w = true <->
               UPDATE_INTERVAL (config w) <= t1 - last_attempt (updater w)).
  { unfold should_update. apply Qgeb_le. }
  split; [exact Hs|]. split; [|split].
  - unfold periodic_check. destruct (should_update t1 w) eqn:E.
    + assert (Hi : UPDATE_INTERVAL (config w) <= t1 - last_attempt (updater w))
        by (apply Hs; reflexivity).
      unfold update_background.
      destruct (is_updating (updater w)); cbn.
      * split; [discriminate|]. intros [H _]. discriminate.
      * destruct (Qltb _ _) eqn:El; cbn.
        -- apply Qltb_lt in El. lra.
        -- split; auto.
    + cbn. split; [discriminate|]. intros [_ H]. apply Hs in H. congruence.
  - intros b l i. unfold main_should_update.
    rewrite andb_true_iff, negb_true_iff. rewrite Qgeb_le. reflexivity.
  - intros Hpos w' Hstart.
    apply update_background_started in Hstart
      as (_ & _ & _ & Hlast & Hcfg & _).
    destruct (should_update t1 w') eqn:E; [|reflexivity].
    unfold should_update in E. apply Qgeb_le in E.
    rewrite Hlast, Hcfg in E. lra.
Qed.

Lemma periodic_gating_witness :
  should_update 1000 sample_world = true
  /\ snd (periodic_check 1000 1001 sample_world) = true
  /\ should_update 1000 busy_world = false.
Proof.
  assert (Hle : 1000 <= 1001) by (vm_compute; discriminate).
  assert (Hpos : 0 < UPDATE_INTERVAL (config sample_world)) by reflexivity.
  destruct (periodic_gating sample_world 1000 1001 Hle) as (H1 & H2 & _ & H4).
  split; [|split].
  - apply H1. vm_compute. discriminate.
  - apply H2. split; [reflexivity | vm_compute; discriminate].
  - apply (H4 Hpos busy_world). reflexivity.
Defined.

(** C3 as stated fails: with a cycle in flight and the interval elapsed,
    [should_update] answers true. *)
Lemma should_update_in_flight_counterexample :
  is_updating (updater busy_world) = true
  /\ ~ (should_update 2000 busy_world = true <->
        is_updating (updater busy_world) = false
        /\ UPDATE_INTERVAL (config busy_world)
             <= 2000 - last_attempt (updater busy_world)).
Proof.
  split; [reflexivity|].
  intros [H _]. destruct (H eq_refl) as [Hf _]. discriminate Hf.
Qed.

(** C4 (forced refresh while busy), as the code has it.  While a cycle is
    in flight, [update_background] returns without touching anything, so a
    forced trigger starts no cycle and leaves the flag and the workers as
    they are; the key handler itself has set [last_attempt] to 0 before. *)
Theorem forced_refresh_while_busy :
  forall (w : World) (t1 t2 : Q),
    is_updating (updater w) = true ->
    update_background t2 w = (w, false)
    /\ forced_trigger t1 t2 w = (key_r w, false)
    /\ workers (key_r w) = workers w
    /\ is_updating (updater (key_r w)) = true
    /\ last_attempt (updater (key_r w)) = 0.
Proof.
  intros w t1 t2 Hbusy.
  split; [apply update_background_busy; exact Hbusy|].
  split; [|cbn; auto].
  unfold forced_trigger, periodic_check.
  destruct (should_update t1 (key_r w)); [|reflexivity].
  apply update_background_busy. exact Hbusy.
Qed.

Lemma forced_refresh_while_busy_witness :
  forced_trigger 1001 1002 busy_world = (key_r busy_world, false)
  /\ in_flight (key_r busy_world) = 1%nat.
Proof.
  split.
  - apply (forced_refresh_while_busy busy_world 1001 1002). reflexivity.
  - reflexivity.
Defined.

(** C4 as stated fails: the forced trigger alters [last_attempt]. *)
Lemma forced_trigger_alters_last_attempt :
  is_updating (updater busy_world) = true
  /\ last_attempt (updater busy_world) == 1000
  /\ ~ last_attempt (updater (fst (forced_trigger 1001 1002 busy_world)))
        == last_attempt (updater busy_world).
Proof.
  split; [reflexivity|]. split; [reflexivity|].
  vm_compute. discriminate.
Qed.

End SchedulerClaims.

(** ** The hand-off slot and the display state *)

Section Display.

Import SurfaceManager.



Lemma get_display_background_settled (s : t) :
  previous_background s = None \/ 1 <= transition_progress s ->
  get_display_background s
  = (s, Return (option_map
                  (fun bg => pygame.smoothscale bg
                               (display_width s, display_height s))
                  (background_surface s))).
Proof.
  intro H. unfold get_display_background.
  destruct (background_surface s) as [bg|]; [|reflexivity]. cbn.
  destruct (previous_background s) as [prev|]; [|reflexivity].
  destruct H as [H|H]; [discriminate|].
  apply Qltb_ge in H. rewrite H. reflexivity.
Qed.

(** C7 (settled frame).  When there is no previous background, or the
    progress has reached 1, [get_display_background] leaves the whole
    state as it is and returns the current background passed through
    [smoothscale] to the display size, and nothing else: no blit, no
    alpha ([None] when there is no current background yet). *)
Theorem settled_frame_identity :
  forall s : t,
    previous_background s = None \/ 1 <= transition_progress s ->
    get_display_background s
    = (s, Return (option_map
                    (fun bg => pygame.smoothscale bg
                                 (display_width s, display_height s))
                    (background_surface s))).
Proof. exact get_display_background_settled. Qed.

Lemma settled_frame_identity_witness :
  get_display_background (update_background sample_image sample_manager)
  = (update_background sample_image sample_manager,
     Return (Some (pygame.smoothscale (pygame.make_surface sample_image)
                     (1920, 1080)%Z))).
Proof.
  apply (settled_frame_identity (update_background sample_image sample_manager)).
  left. reflexivity.
Defined.

Lemma get_display_background_frame (s : t) :
  let s' := fst (get_display_background s) in
  config s' = config s
  /\ display_width s' = display_width s
  /\ display_height s' = display_height s
  /\ background_surface s' = background_surface s
  /\ previous_background s' = previous_background s
  /\ pending_background s' = pending_background s.
Proof.
  unfold get_display_background.
  destruct (background_surface s) as [bg|] eqn:Hbg; cbn; [|auto 10].
  destruct (previous_background s) as [prev|] eqn:Hp; cbn; [|auto 10].
  destruct (Qltb _ _); cbn; [|auto 10].
  destruct (Qeq_bool _ _); cbn; auto 10.
Qed.

Lemma settled_inv_exec (s : t) (o : Op) : settled_inv s -> settled_inv (exec s o).
Proof.
  unfold settled_inv. intro Hinv.
  assert (Hupd : forall img x,
             (previous_background x = None -> transition_progress x = 1) ->
             previous_background (update_background img x) = None ->
             transition_progress (update_background img x) = 1).
  { intros img x Hx. unfold update_background.
    destruct (background_surface x); cbn; [discriminate | exact Hx]. }
  destruct o as [img| |img|]; cbn.
  - exact Hinv.
  - unfold apply_pending_updates.
    destruct (pending_background s) as [pending|]; [|exact Hinv].
    cbn. apply (Hupd pending). exact Hinv.
  - apply (Hupd img). exact Hinv.
  - intro Hnone.
    destruct (get_display_background_frame s) as (_ & _ & _ & _ & Hprev & _).
    cbv zeta in Hprev. rewrite Hprev in Hnone.
    rewrite (get_display_background_settled s (or_introl Hnone)). cbn. auto.
Qed.

(** C9 (settled display).  A fresh [SurfaceManager] has no previous
    background and progress 1; each operation on the display state
    (queueing, applying the pending image, [update_background], also for
    the very first image, and [get_display_background]) keeps the property
    that progress is 1 whenever there is no previous background; hence it
    holds in every state reached from a fresh one. *)
Theorem settled_display_invariant :
  (forall cfg dw dh, settled_inv (init cfg dw dh))
  /\ (forall s o, settled_inv s -> settled_inv (exec s o))
  /\ (forall cfg dw dh (ops : list Op),
        settled_inv (fold_left exec ops (init cfg dw dh))).
Proof.
  split; [|split].
  - intros cfg dw dh _. reflexivity.
  - apply settled_inv_exec.
  - intros cfg dw dh ops.
    assert (H : forall s, settled_inv s -> settled_inv (fold_left exec ops s)).
    { induction ops as [|o ops IH]; intros s Hs; cbn; [exact Hs|].
      apply IH. apply settled_inv_exec. exact Hs. }
    apply H. intros _. reflexivity.
Qed.

Lemma settled_display_invariant_witness :
  settled_inv (exec sample_manager (UpdateBackground sample_image))
  /\ transition_progress (exec sample_manager (UpdateBackground sample_image)) = 1.
Proof.
  assert (H : settled_inv (exec sample_manager (UpdateBackground sample_image))).
  { apply (proj1 (proj2 settled_display_invariant)).
    intros _. reflexivity. }
  split; [exact H | apply H; reflexivity].
Defined.

(** *** The crossfade *)

Lemma py_min_Qmin (a b : Q) : py_min a b == Qmin a b.
Proof.
  unfold py_min. destruct (Qltb b a) eqn:E.
  - apply Qltb_lt in E. symmetry. apply Q.min_r. lra.
  - apply Qltb_ge in E. symmetry. apply Q.min_l. exact E.
Qed.





Section Crossfade.

Variable s : t.
Variables bg prev : pygame.Surface.
Hypothesis Hbg : background_surface s = Some bg.
Hypothesis Hprev : previous_background s = Some prev.
Hypothesis Hstart : transition_progress s == 0.

Let d : Q := display_fps (config s) * animation_transition_duration (config s).
Let progress (n : nat) : Q := transition_progress (frames n s).

Hypothesis Hpos : 0 < d.






End Crossfade.



End Display.

(** ** The synthesiser *)

Section Synthesiser.

Import SimplifiedDiffusionPipeline.

(** C10 (the generation step does not raise).  On an initialised pipeline
    with render dimensions that are not negative, the [try] block of
    [generate] together with its handler always returns, and when the block
    raises the value is the image [Image.new('RGB', (width, height),
    (30, 30, 30))] with seed 0: an image of the render dimensions, every
    pixel of which is (30, 30, 30).  Hence [generate] returns, with that
    value when the generation fails, whenever the debug block in front of
    the [try] has not raised. *)
Theorem generate_total :
  forall (self : t) (p : Pipe) (env : Env) (image : option PIL.Image)
         (prompt : string),
    pipe self = Some p ->
    (0 <= render_width (config self))%Z ->
    (0 <= render_height (config self))%Z ->
    let width := render_width (config self) in
    let height := render_height (config self) in
    let gray := PIL.solid "RGB" (width, height) (30, 30, 30)%Z in
    let guarded := try_except (generation_step self p env prompt width height)
                              (fun _ => fallback width height) in
    (exists r, guarded = Return r)
    /\ (forall e, generation_step self p env prompt width height = Raise e ->
                  guarded = Return (gray, 0%Z))
    /\ (debug_dump self env image = Return tt ->
        generate self env image prompt = guarded)
    /\ PIL.size gray = (width, height)
    /\ (forall x y : nat,
          (Z.of_nat x < width)%Z -> (Z.of_nat y < height)%Z ->
          PIL.getpixel gray x y = Some (30, 30, 30)%Z).
Proof.
  intros self p env image prompt Hp Hw Hh width height gray guarded.
  assert (Hfb : fallback width height = Return (gray, 0%Z)).
  { unfold fallback, PIL.new. cbn [fst snd].
    destruct (Z.ltb_spec width 0); [unfold width in *; lia|].
    destruct (Z.ltb_spec height 0); [unfold height in *; lia|].
    reflexivity. }
  split; [|split; [|split; [|split]]].
  - unfold guarded.
    destruct (generation_step self p env prompt width height) as [r|e]; cbn;
      eauto.
  - intros e He. unfold guarded. rewrite He. exact Hfb.
  - intro Hdump. unfold generate. rewrite Hp, Hdump. reflexivity.
  - reflexivity.
  - intros x y Hx Hy. cbn.
    apply Z.ltb_lt in Hx, Hy. rewrite Hx, Hy. reflexivity.
Qed.

Lemma generate_total_witness :
  generate sample_pipeline sample_gen_env (Some sample_image) "a cozy Ghibli cottage"
  = Return (PIL.solid "RGB" (512, 512)%Z (30, 30, 30)%Z, 0%Z).
Proof.
  assert (Hw : (0 <= render_width (config sample_pipeline))%Z) by (cbn; lia).
  assert (Hh : (0 <= render_height (config sample_pipeline))%Z) by (cbn; lia).
  destruct (generate_total sample_pipeline failing_pipe sample_gen_env
              (Some sample_image) "a cozy Ghibli cottage" eq_refl Hw Hh)
    as (_ & Hfail & Hgen & _).
  rewrite (Hgen eq_refl).
  apply (Hfail (OtherError "CUDA out of memory")). reflexivity.
Defined.

End Synthesiser.

(** ** The refresh cycle *)

Section Cycle.

Import BackgroundUpdater.

Lemma do_update_finally_frame (thread : nat) (w : World) :
  let w' := do_update_finally thread w in
  is_updating (updater w') = false
  /\ surface_manager w' = surface_manager w
  /\ stock_fetcher w' = stock_fetcher w
  /\ overlay_stock_data w' = overlay_stock_data w.
Proof. cbn. auto. Qed.

Lemma queue_pending (w : World) (img : PIL.Image) :
  has_surface_manager (updater w) = true ->
  surface_manager (queue w img)
  = SurfaceManager.queue_background_update img (surface_manager w).
Proof. intro H. unfold queue. rewrite H. reflexivity. Qed.




(** C8 (fetch failure).  Let the fetch of a cycle raise.  With a cached
    snapshot, [fetch_data] hands the cached snapshot on: it is the one given
    to the overlay and to the chart renderer, and, the renderer returning a
    chart, the cycle ends with an image in the slot, the synthesised one or
    the chart of the cached snapshot.  Without a cached snapshot the cycle
    does nothing: slot, display, cache and overlay are as before.  In both
    cases [is_updating] is false at the end. *)
Theorem fetch_failure_contract :
  forall (thread : nat) (env : CycleEnv) (w : World) (e : exn),
    fetch_attempt env = Raise e ->
    let w' := _do_update thread env w in
    is_updating (updater w') = false
    /\ (forall (cached : StockData) (chart : PIL.ndarray),
          StockFetcher.last_data (stock_fetcher w) = Some cached ->
          render_chart_array env cached = Return chart ->
          has_surface_manager (updater w) = true ->
          (has_stock_overlay (updater w) = true ->
           overlay_stock_data w' = Some cached)
          /\ StockFetcher.last_data (stock_fetcher w') = Some cached
          /\ exists artifact : PIL.Image,
               SurfaceManager.pending_background (surface_manager w')
               = Some artifact
               /\ (artifact = PIL.fromarray chart
                   \/ exists prompt seed,
                        generate_prompt env cached = Return prompt
                        /\ generate env (PIL.fromarray chart) prompt
                           = Return (artifact, seed)))
    /\ (StockFetcher.last_data (stock_fetcher w) = None ->
        surface_manager w' = surface_manager w
        /\ stock_fetcher w' = stock_fetcher w
        /\ overlay_stock_data w' = overlay_stock_data w).
Proof.
  intros thread env w e Hfetch w'.
  split; [reflexivity|]. split.
  - intros cached chart Hcache Hrender Hsm.
    unfold w', _do_update, do_update_try, StockFetcher.fetch_data.
    rewrite Hfetch, Hcache. cbn. rewrite Hrender.
    set (w1 := if has_stock_overlay (updater w) then _ else _).
    assert (H1 : updater w1 = updater w
                 /\ stock_fetcher w1 = stock_fetcher w
                 /\ (has_stock_overlay (updater w) = true ->
                     overlay_stock_data w1 = Some cached)).
    { subst w1. destruct (has_stock_overlay (updater w)); cbn;
        destruct (stock_fetcher w); auto; repeat split; auto; discriminate. }
    destruct H1 as (Hu & Hf & Ho).
    assert (Hq : forall img,
               let w2 := queue w1 img in
               (has_stock_overlay (updater w) = true ->
                overlay_stock_data w2 = Some cached)
               /\ StockFetcher.last_data (stock_fetcher w2) = Some cached
               /\ SurfaceManager.pending_background (surface_manager w2)
                  = Some img).
    { intro img. unfold queue. rewrite Hu, Hsm. cbn. rewrite Hf. auto. }
    destruct (diffusion_enabled (updater w1)).
    + destruct (generate_prompt env cached) as [prompt|e1] eqn:Hprompt; cbn.
      * destruct (generate env (PIL.fromarray chart) prompt)
          as [[image seed]|e2] eqn:Hgen; cbn.
        -- destruct (Hq image) as (Hq1 & Hq2 & Hq3).
           split; [exact Hq1|]. split; [exact Hq2|].
           exists image. split; [exact Hq3|]. right. eauto.
        -- destruct (Hq (PIL.fromarray chart)) as (Hq1 & Hq2 & Hq3).
           split; [exact Hq1|]. split; [exact Hq2|]. eauto.
      * destruct (Hq (PIL.fromarray chart)) as (Hq1 & Hq2 & Hq3).
        split; [exact Hq1|]. split; [exact Hq2|]. eauto.
    + cbn. destruct (Hq (PIL.fromarray chart)) as (Hq1 & Hq2 & Hq3).
      split; [exact Hq1|]. split; [exact Hq2|]. eauto.
  - intro Hnone.
    unfold w', _do_update, do_update_try, StockFetcher.fetch_data.
    rewrite Hfetch, Hnone. cbn. destruct (stock_fetcher w). auto.
Qed.

Lemma fetch_failure_contract_witness :
  (exists artifact,
      SurfaceManager.pending_background
        (surface_manager (_do_update 0 fetch_fails_env cached_world))
      = Some artifact)
  /\ surface_manager (_do_update 0 fetch_fails_env busy_world)
     = surface_manager busy_world
  /\ is_updating (updater (_do_update 0 fetch_fails_env busy_world)) = false.
Proof.
  destruct (fetch_failure_contract 0 fetch_fails_env cached_world
              (OtherError "ConnectionError") eq_refl) as (_ & Hcached & _).
  destruct (Hcached sample_data sample_chart eq_refl eq_refl eq_refl)
    as (_ & _ & artifact & Hart & _).
  destruct (fetch_failure_contract 0 fetch_fails_env busy_world
              (OtherError "ConnectionError") eq_refl) as (Hidle & _ & Hnone).
  destruct (Hnone eq_refl) as (Hsm & _).
  split; [exists artifact; exact Hart|]. split; [exact Hsm | exact Hidle].
Defined.

End Cycle.

(** * Further properties of the code *)

(** ** The refresh cycle of stockvision.py *)

Section CycleExtras.

Import BackgroundUpdater.

Lemma do_update_try_display (env : CycleEnv) (w : World) :
  let m := surface_manager w in
  let m' := surface_manager (fst (do_update_try env w)) in
  SurfaceManager.background_surface m' = SurfaceManager.background_surface m
  /\ SurfaceManager.previous_background m' = SurfaceManager.previous_background m
  /\ SurfaceManager.transition_progress m' = SurfaceManager.transition_progress m
  /\ SurfaceManager.config m' = SurfaceManager.config m
  /\ SurfaceManager.display_width m' = SurfaceManager.display_width m
  /\ SurfaceManager.display_height m' = SurfaceManager.display_height m.
Proof.
  assert (Hq : forall x img,
             surface_manager (queue x img) = surface_manager x
             \/ surface_manager (queue x img)
                = SurfaceManager.queue_background_update img (surface_manager x)).
  { intros x img. unfold queue. destruct (has_surface_manager (updater x)); auto. }
  assert (Hk : forall x img,
             surface_manager x = surface_manager w ->
             let m := surface_manager w in
             let m' := surface_manager (queue x img) in
             SurfaceManager.background_surface m' = SurfaceManager.background_surface m
             /\ SurfaceManager.previous_background m' = SurfaceManager.previous_background m
             /\ SurfaceManager.transition_progress m' = SurfaceManager.transition_progress m
             /\ SurfaceManager.config m' = SurfaceManager.config m
             /\ SurfaceManager.display_width m' = SurfaceManager.display_width m
             /\ SurfaceManager.display_height m' = SurfaceManager.display_height m).
  { intros x img Hx. cbv zeta.
    destruct (Hq x img) as [H|H]; rewrite H, Hx; cbn; auto 10. }
  unfold do_update_try.
  destruct (StockFetcher.fetch_data _ _) as [f [d|]]; cbn; [|auto 10].
  destruct (render_chart_array env d) as [arr|e]; cbn; [|auto 10].
  set (w1 := if has_stock_overlay _ then _ else _).
  assert (H1 : surface_manager w1 = surface_manager w).
  { subst w1. destruct (has_stock_overlay _); reflexivity. }
  destruct (diffusion_enabled (updater w1)).
  - destruct (bind _ _) as [[image seed]|e]; cbn; apply Hk; exact H1.
  - cbn. apply Hk; exact H1.
Qed.

Lemma worker_leaves_display_aux (thread : nat) (env : CycleEnv) (w : World) :
  last_attempt (updater (_do_update thread env w)) = last_attempt (updater w)
  /\ config (_do_update thread env w) = config w.
Proof.
  unfold _do_update. cbn.
  destruct (do_update_try_frame env w) as [Hu _]. rewrite Hu.
  split; [reflexivity|].
  unfold do_update_try.
  destruct (StockFetcher.fetch_data _ _) as [f [d|]]; cbn; [|reflexivity].
  destruct (render_chart_array env d) as [arr|e]; cbn; [|reflexivity].
  set (w1 := if has_stock_overlay _ then _ else _).
  assert (Hc : config w1 = config w).
  { subst w1. destruct (has_stock_overlay _); reflexivity. }
  assert (Hq : forall img, config (queue w1 img) = config w).
  { intro img. unfold queue. destruct (has_surface_manager _); exact Hc. }
  destruct (diffusion_enabled (updater w1)).
  - destruct (bind _ _) as [[image seed]|e]; cbn; apply Hq.
  - cbn. apply Hq.
Qed.

(** X1.  The worker writes to the hand-off slot only: whatever the collaborators
    do, a run of [_do_update] leaves the current and the previous
    background, the transition progress and the geometry of the surface
    manager as they were, and does not touch [last_attempt]. *)
Theorem worker_leaves_display :
  forall (thread : nat) (env : CycleEnv) (w : World),
    let m := surface_manager w in
    let m' := surface_manager (_do_update thread env w) in
    SurfaceManager.background_surface m' = SurfaceManager.background_surface m
    /\ SurfaceManager.previous_background m' = SurfaceManager.previous_background m
    /\ SurfaceManager.transition_progress m' = SurfaceManager.transition_progress m
    /\ SurfaceManager.config m' = SurfaceManager.config m
    /\ SurfaceManager.display_width m' = SurfaceManager.display_width m
    /\ SurfaceManager.display_height m' = SurfaceManager.display_height m
    /\ last_attempt (updater (_do_update thread env w)) = last_attempt (updater w)
    /\ config (_do_update thread env w) = config w.
Proof.
  intros thread env w. cbv zeta.
  destruct (worker_leaves_display_aux thread env w) as (Hl & Hc).
  destruct (do_update_try_display env w) as (H1 & H2 & H3 & H4 & H5 & H6).
  cbv zeta in *. unfold _do_update in *. cbn in *.
  split; [exact H1|]. split; [exact H2|]. split; [exact H3|].
  split; [exact H4|]. split; [exact H5|]. split; [exact H6|].
  split; [exact Hl | exact Hc].
Qed.

(** X2.  A cycle in which everything succeeds: the new snapshot is cached and
    given to the overlay, the synthesised image is in the slot, and the
    flag is down. *)
Theorem cycle_success :
  forall (thread : nat) (env : CycleEnv) (w : World) (d : StockData)
         (chart : PIL.ndarray) (prompt : string) (image : PIL.Image) (seed : Z),
    has_surface_manager (updater w) = true ->
    has_stock_overlay (updater w) = true ->
    diffusion_enabled (updater w) = true ->
    fetch_attempt env = Return d ->
    render_chart_array env d = Return chart ->
    generate_prompt env d = Return prompt ->
    generate env (PIL.fromarray chart) prompt = Return (image, seed) ->
    let w' := _do_update thread env w in
    SurfaceManager.pending_background (surface_manager w') = Some image
    /\ StockFetcher.last_data (stock_fetcher w') = Some d
    /\ overlay_stock_data w' = Some d
    /\ is_updating (updater w') = false.
Proof.
  intros thread env w d chart prompt image seed Hsm Hov Hai Hf Hr Hp Hg.
  cbv zeta. unfold _do_update, do_update_try, StockFetcher.fetch_data.
  rewrite Hf. cbn. rewrite Hr, Hov. cbn. rewrite Hai, Hp. cbn. rewrite Hg.
  unfold queue. cbn. rewrite Hsm. cbn. auto.
Qed.

Lemma cycle_success_witness :
  SurfaceManager.pending_background
    (surface_manager (_do_update 0 sample_env busy_world)) = Some sample_image
  /\ StockFetcher.last_data (stock_fetcher (_do_update 0 sample_env busy_world))
     = Some sample_data.
Proof.
  destruct (cycle_success 0 sample_env busy_world sample_data sample_chart
              "a vibrant Ghibli town" sample_image 7
              eq_refl eq_refl eq_refl eq_refl eq_refl eq_refl eq_refl)
    as (H1 & H2 & _).
  split; [exact H1 | exact H2].
Defined.

(** X3.  With image generation switched off the chart itself is published, and
    neither the prompt generator nor the synthesiser has any influence on
    the outcome of the cycle. *)
Theorem cycle_without_diffusion :
  forall (thread : nat) (env : CycleEnv) (w : World) (d : StockData)
         (chart : PIL.ndarray),
    has_surface_manager (updater w) = true ->
    diffusion_enabled (updater w) = false ->
    snd (StockFetcher.fetch_data (fetch_attempt env) (stock_fetcher w)) = Some d ->
    render_chart_array env d = Return chart ->
    SurfaceManager.pending_background
      (surface_manager (_do_update thread env w)) = Some (PIL.fromarray chart)
    /\ forall gp g,
         _do_update thread
           {| fetch_attempt := fetch_attempt env;
              render_chart_array := render_chart_array env;
              generate_prompt := gp; generate := g |} w
         = _do_update thread env w.
Proof.
  intros thread env w d chart Hsm Hai Hf Hr.
  assert (Hgen : forall gp g,
             do_update_try
               {| fetch_attempt := fetch_attempt env;
                  render_chart_array := render_chart_array env;
                  generate_prompt := gp; generate := g |} w
             = (queue (if has_stock_overlay (updater w)
                       then set_overlay
                              (set_stock_fetcher w
                                 (fst (StockFetcher.fetch_data (fetch_attempt env)
                                         (stock_fetcher w)))) (Some d)
                       else set_stock_fetcher w
                              (fst (StockFetcher.fetch_data (fetch_attempt env)
                                      (stock_fetcher w))))
                      (PIL.fromarray chart), Return tt)).
  { intros gp g. unfold do_update_try. cbn [fetch_attempt render_chart_array].
    destruct (StockFetcher.fetch_data (fetch_attempt env) (stock_fetcher w))
      as [f od] eqn:E. cbn in Hf. subst od. cbn. rewrite Hr.
    destruct (has_stock_overlay (updater w)); cbn; rewrite Hai; reflexivity. }
  assert (Henv : do_update_try env w
                 = do_update_try
                     {| fetch_attempt := fetch_attempt env;
                        render_chart_array := render_chart_array env;
                        generate_prompt := generate_prompt env;
                        generate := generate env |} w).
  { destruct env; reflexivity. }
  split.
  - unfold _do_update. rewrite Henv, Hgen. cbn.
    rewrite queue_pending; [reflexivity|].
    destruct (has_stock_overlay (updater w)); exact Hsm.
  - intros gp g. unfold _do_update. rewrite Henv, !Hgen. reflexivity.
Qed.

Lemma cycle_without_diffusion_witness :
  SurfaceManager.pending_background
    (surface_manager (_do_update 0 sample_env chart_only_world))
  = Some (PIL.fromarray sample_chart).
Proof.
  apply (cycle_without_diffusion 0 sample_env chart_only_world sample_data
           sample_chart eq_refl eq_refl eq_refl eq_refl).
Defined.

(** X4.  A chart renderer that raises ends the cycle without a new image and
    without touching the overlay, but the snapshot just fetched is already
    the cached one. *)
Theorem cycle_render_failure :
  forall (thread : nat) (env : CycleEnv) (w : World) (d : StockData) (e : exn),
    fetch_attempt env = Return d ->
    render_chart_array env d = Raise e ->
    let w' := _do_update thread env w in
    surface_manager w' = surface_manager w
    /\ overlay_stock_data w' = overlay_stock_data w
    /\ StockFetcher.last_data (stock_fetcher w') = Some d
    /\ is_updating (updater w') = false.
Proof.
  intros thread env w d e Hf Hr. cbv zeta.
  unfold _do_update, do_update_try, StockFetcher.fetch_data.
  rewrite Hf. cbn. rewrite Hr. cbn. auto.
Qed.

Lemma cycle_render_failure_witness :
  surface_manager (_do_update 0 render_fails_env busy_world)
  = surface_manager busy_world
  /\ StockFetcher.last_data
       (stock_fetcher (_do_update 0 render_fails_env busy_world))
     = Some sample_data.
Proof.
  destruct (cycle_render_failure 0 render_fails_env busy_world sample_data
              (OtherError "MemoryError") eq_refl eq_refl) as (H1 & _ & H3 & _).
  split; [exact H1 | exact H3].
Defined.

(** X5.  With the simplified pipeline as synthesiser, an error inside the
    generation step does not reach the handler of [_do_update]: the pipeline
    answers with its solid gray image, and that image, not the chart, is
    what the cycle puts in the slot. *)
Theorem cycle_publishes_gray_fallback :
  forall (thread : nat) (w : World) (self : SimplifiedDiffusionPipeline.t)
         (p : SimplifiedDiffusionPipeline.Pipe)
         (genv : SimplifiedDiffusionPipeline.Env)
         (fetch : result StockData) (render : StockData -> result PIL.ndarray)
         (gp : StockData -> result string)
         (d : StockData) (chart : PIL.ndarray) (prompt : string) (e : exn),
    has_surface_manager (updater w) = true ->
    diffusion_enabled (updater w) = true ->
    fetch = Return d ->
    render d = Return chart ->
    gp d = Return prompt ->
    SimplifiedDiffusionPipeline.pipe self = Some p ->
    SimplifiedDiffusionPipeline.debug self = false ->
    (0 <= render_width (SimplifiedDiffusionPipeline.config self))%Z ->
    (0 <= render_height (SimplifiedDiffusionPipeline.config self))%Z ->
    SimplifiedDiffusionPipeline.generation_step self p genv prompt
      (render_width (SimplifiedDiffusionPipeline.config self))
      (render_height (SimplifiedDiffusionPipeline.config self)) = Raise e ->
    SurfaceManager.pending_background
      (surface_manager
         (_do_update thread (pipeline_env self genv fetch render gp) w))
    = Some (PIL.solid "RGB"
              (render_width (SimplifiedDiffusionPipeline.config self),
               render_height (SimplifiedDiffusionPipeline.config self))
              (30, 30, 30)%Z).
Proof.
  intros thread w self p genv fetch render gp d chart prompt e
         Hsm Hai Hf Hr Hp Hpipe Hdbg Hw Hh Hstep.
  unfold _do_update, do_update_try, pipeline_env, StockFetcher.fetch_data.
  cbn [fetch_attempt render_chart_array generate_prompt generate].
  rewrite Hf. cbn. rewrite Hr.
  assert (Hgen : SimplifiedDiffusionPipeline.generate self genv
                   (Some (PIL.fromarray chart)) prompt
                 = Return (PIL.solid "RGB"
                             (render_width (SimplifiedDiffusionPipeline.config self),
                              render_height (SimplifiedDiffusionPipeline.config self))
                             (30, 30, 30)%Z, 0%Z)).
  { unfold SimplifiedDiffusionPipeline.generate,
      SimplifiedDiffusionPipeline.debug_dump.
    rewrite Hpipe, Hdbg. cbn. rewrite Hstep. cbn.
    unfold SimplifiedDiffusionPipeline.fallback, PIL.new. cbn [fst snd].
    destruct (Z.ltb_spec (render_width (SimplifiedDiffusionPipeline.config self)) 0);
      [lia|].
    destruct (Z.ltb_spec (render_height (SimplifiedDiffusionPipeline.config self)) 0);
      [lia|].
    reflexivity. }
  destruct (has_stock_overlay (updater w)); cbn; rewrite Hai, Hp; cbn;
    rewrite Hgen; cbn; unfold queue; cbn; rewrite Hsm; reflexivity.
Qed.

Lemma cycle_publishes_gray_fallback_witness :
  SurfaceManager.pending_background
    (surface_manager
       (_do_update 0
          (pipeline_env sample_pipeline sample_gen_env (Return sample_data)
             (fun _ => Return sample_chart)
             (fun _ => Return "a cozy Ghibli cottage"%string))
          busy_world))
  = Some (PIL.solid "RGB" (512, 512)%Z (30, 30, 30)%Z).
Proof.
  assert (Hw : (0 <= render_width
                      (SimplifiedDiffusionPipeline.config sample_pipeline))%Z)
    by (cbn; lia).
  assert (Hh : (0 <= render_height
                      (SimplifiedDiffusionPipeline.config sample_pipeline))%Z)
    by (cbn; lia).
  apply (cycle_publishes_gray_fallback 0 busy_world sample_pipeline
           failing_pipe sample_gen_env (Return sample_data)
           (fun _ => Return sample_chart)
           (fun _ => Return "a cozy Ghibli cottage"%string)
           sample_data sample_chart "a cozy Ghibli cottage"
           (OtherError "CUDA out of memory")
           eq_refl eq_refl eq_refl eq_refl eq_refl eq_refl eq_refl Hw Hh eq_refl).
Defined.

End CycleExtras.

(** ** The scheduler of stockvision.py *)

Section SchedulerExtras.

Import BackgroundUpdater.

Lemma periodic_check_started (w : World) (t1 t2 : Q) :
  t1 <= t2 ->
  (snd (periodic_check t1 t2 w) = true <->
   is_updating (updater w) = false
   /\ UPDATE_INTERVAL (config w) <= t1 - last_attempt (updater w)).
Proof.
  intro Ht. unfold periodic_check, should_update.
  destruct (Qgeb _ _) eqn:E.
  - apply Qgeb_le in E. unfold update_background.
    destruct (is_updating (updater w)); cbn.
    + split; [discriminate | intros [H _]; discriminate].
    + destruct (Qltb _ _) eqn:El; cbn.
      * apply Qltb_lt in El. lra.
      * split; auto.
  - cbn. split; [discriminate|]. intros [_ H]. apply Qgeb_le in H. congruence.
Qed.

(** X6.  A forced trigger (the key handler, then the periodic check of the same
    iteration, the clock not running backwards) starts a cycle exactly
    when none is in flight and the clock reading itself is at least the
    update interval: the handler has set [last_attempt] to 0, so the time
    of the last start no longer counts.  The cycle started carries the
    second clock reading as [last_attempt]. *)
Theorem forced_trigger_starts :
  forall (w : World) (t1 t2 : Q),
    t1 <= t2 ->
    (snd (forced_trigger t1 t2 w) = true <->
     is_updating (updater w) = false /\ UPDATE_INTERVAL (config w) <= t1)
    /\ (snd (forced_trigger t1 t2 w) = true ->
        last_attempt (updater (fst (forced_trigger t1 t2 w))) = t2
        /\ in_flight (fst (forced_trigger t1 t2 w)) = S (in_flight w)).
Proof.
  intros w t1 t2 Ht. unfold forced_trigger. split.
  - rewrite (periodic_check_started (key_r w) t1 t2 Ht). cbn.
    split; intros [H1 H2]; split; auto; lra.
  - intro H. pose proof H as H'.
    apply (periodic_check_started (key_r w) t1 t2 Ht) in H' as [Hidle Hint].
    unfold periodic_check in *.
    destruct (should_update t1 (key_r w)); [|discriminate].
    destruct (update_background t2 (key_r w)) as [w' b] eqn:E. cbn in H.
    subst b. apply update_background_started in E
      as (_ & _ & _ & Hlast & _ & Hws).
    cbn. split; [exact Hlast|]. unfold in_flight. rewrite Hws. reflexivity.
Qed.

Lemma forced_trigger_starts_witness :
  snd (forced_trigger 1700000000 1700000001 sample_world) = true
  /\ snd (forced_trigger 100 101 sample_world) = false.
Proof.
  assert (H1 : 1700000000 <= 1700000001) by (vm_compute; discriminate).
  assert (H2 : 100 <= 101) by (vm_compute; discriminate).
  split.
  - apply (proj1 (forced_trigger_starts sample_world 1700000000 1700000001 H1)).
    split; [reflexivity | vm_compute; discriminate].
  - destruct (snd (forced_trigger 100 101 sample_world)) eqn:E; [|reflexivity].
    apply (proj1 (forced_trigger_starts sample_world 100 101 H2)) in E
      as [_ E]. vm_compute in E. exfalso. apply E. reflexivity.
Defined.

(** X7.  When a cycle has ended, the next periodic check starts a new one
    exactly when the update interval has passed since the start of the
    ended cycle; if the refresh key was pressed while the cycle ran, exactly
    when the clock reading is at least the interval, that is, at once. *)
Theorem next_cycle_after_finish :
  forall (w w' : World) (t : Q) (thread : nat) (env : CycleEnv) (t1 t2 : Q),
    update_background t w = (w', true) ->
    t1 <= t2 ->
    (snd (periodic_check t1 t2 (_do_update thread env w')) = true <->
     UPDATE_INTERVAL (config w) <= t1 - t)
    /\ (snd (periodic_check t1 t2 (_do_update thread env (key_r w'))) = true <->
        UPDATE_INTERVAL (config w) <= t1).
Proof.
  intros w w' t thread env t1 t2 Hstart Ht.
  apply update_background_started in Hstart as (_ & _ & _ & Hlast & Hcfg & _).
  split.
  - rewrite (periodic_check_started _ t1 t2 Ht).
    destruct (worker_leaves_display_aux thread env w') as (Hl & Hc).
    rewrite Hl, Hc, Hlast, Hcfg. cbn. split; [intros [_ H]; exact H | auto].
  - rewrite (periodic_check_started _ t1 t2 Ht).
    destruct (worker_leaves_display_aux thread env (key_r w')) as (Hl & Hc).
    rewrite Hl, Hc. cbn. rewrite Hcfg.
    split; [intros [_ H]; lra | intro H; split; [reflexivity | lra]].
Qed.

End SchedulerExtras.

Section SchedulerExtrasWitnesses.

Import BackgroundUpdater.

Lemma next_cycle_after_finish_witness :
  snd (periodic_check 1100 1101 (_do_update 0 sample_env busy_world)) = false
  /\ snd (periodic_check 1100 1101 (_do_update 0 sample_env (key_r busy_world)))
     = true.
Proof.
  assert (Ht : 1100 <= 1101) by (vm_compute; discriminate).
  destruct (next_cycle_after_finish sample_world busy_world 1000 0 sample_env
              1100 1101 eq_refl Ht) as [H1 H2].
  split.
  - destruct (snd (periodic_check 1100 1101 (_do_update 0 sample_env busy_world)));
      [|reflexivity].
    exfalso. assert (H : UPDATE_INTERVAL (config sample_world) <= 1100 - 1000)
      by (apply H1; reflexivity).
    vm_compute in H. apply H. reflexivity.
  - apply H2. vm_compute. discriminate.
Defined.

End SchedulerExtrasWitnesses.

(** ** The display state *)

Section DisplayExtras.

Import SurfaceManager.

Lemma exec_config (s : t) (o : Op) :
  config (exec s o) = config s
  /\ display_width (exec s o) = display_width s
  /\ display_height (exec s o) = display_height s.
Proof.
  destruct o as [img| |img|]; cbn.
  - auto.
  - unfold apply_pending_updates.
    destruct (pending_background s); [|auto].
    unfold update_background. destruct (background_surface s); cbn; auto.
  - unfold update_background. destruct (background_surface s); cbn; auto.
  - destruct (get_display_background_frame s) as (H1 & H2 & H3 & _). auto.
Qed.

Lemma update_background_fields (img : PIL.Image) (s : t) :
  background_surface (update_background img s) = Some (pygame.make_surface img)
  /\ (previous_background (update_background img s) = previous_background s
      /\ transition_progress (update_background img s) = transition_progress s
      \/ transition_progress (update_background img s) = 0).
Proof.
  unfold update_background. destruct (background_surface s); cbn; auto.
Qed.

Lemma py_int_alpha (p : Q) : 0 <= p -> p <= 1 -> (0 <= py_int (255 * p) <= 255)%Z.
Proof.
  intros H0 H1. unfold py_int.
  destruct p as [n d]. unfold Qle in H0, H1. cbn [Qnum Qden] in H0, H1.
  cbn [Qnum Qden Qmult].
  change (Z.pos (1 * d)) with (Z.pos d).
  split.
  - apply Z.quot_pos; lia.
  - apply Z.quot_le_upper_bound; lia.
Qed.

Lemma display_inv_exec (cfg : Config) (s : t) (o : Op) :
  0 < display_fps cfg * animation_transition_duration cfg ->
  display_inv cfg s -> display_inv cfg (exec s o).
Proof.
  intros Hpos (Hc & Hp & Hb).
  assert (Hupd : forall img, display_inv cfg (update_background img s)).
  { intro img. unfold display_inv, update_background.
    destruct (background_surface s); cbn; repeat split; auto; try lra;
      try discriminate; apply Hp. }
  destruct o as [img| |img|]; cbn.
  - exact (conj Hc (conj Hp Hb)).
  - unfold apply_pending_updates.
    destruct (pending_background s) as [pending|]; [|exact (conj Hc (conj Hp Hb))].
    destruct (Hupd pending) as (H1 & H2 & H3). repeat split; auto; apply H2.
  - apply Hupd.
  - destruct (get_display_background_frame s) as (H1 & _ & _ & H4 & H5 & _).
    cbv zeta in *. unfold display_inv. rewrite H1, H4, H5.
    split; [exact Hc|]. split; [|exact Hb].
    unfold get_display_background.
    destruct (background_surface s) as [bg|]; [|exact Hp]. cbn.
    destruct (previous_background s) as [prev|]; [|exact Hp].
    destruct (Qltb (transition_progress s) 1) eqn:El; [|exact Hp].
    rewrite Hc. destruct (Qeq_bool _ _) eqn:Ez; [exact Hp|]. cbn.
    assert (Hd : 0 < 1 / (display_fps cfg * animation_transition_duration cfg)).
    { unfold Qdiv. rewrite Qmult_1_l. apply Qinv_lt_0_compat. exact Hpos. }
    rewrite py_min_Qmin.
    destruct (Q.min_spec 1 (transition_progress s
                + 1 / (display_fps cfg * animation_transition_duration cfg)))
      as [[Ha Hb']|[Ha Hb']]; rewrite Hb'; lra.
Qed.

Lemma display_inv_reach (cfg : Config) (dw dh : Z) (ops : list Op) :
  0 < display_fps cfg * animation_transition_duration cfg ->
  display_inv cfg (fold_left exec ops (init cfg dw dh)).
Proof.
  intro Hpos.
  assert (H : forall s, display_inv cfg s -> display_inv cfg (fold_left exec ops s)).
  { induction ops as [|o ops IH]; intros s Hs; cbn; [exact Hs|].
    apply IH. apply display_inv_exec; assumption. }
  apply H. unfold display_inv. cbn. repeat split; auto; lra.
Qed.

(** X8.  In every state reached from a fresh surface manager, with a positive
    [fps * duration], the transition progress lies between 0 and 1, and a
    frame that [get_display_background] returns is either the current
    background scaled to the display, or the blend of the scaled previous
    and current backgrounds with an alpha between 0 and 255. *)
Theorem frame_alpha_in_range :
  forall (cfg : Config) (dw dh : Z) (ops : list Op),
    0 < display_fps cfg * animation_transition_duration cfg ->
    let s := fold_left exec ops (init cfg dw dh) in
    let size := (display_width s, display_height s) in
    0 <= transition_progress s <= 1
    /\ forall frame,
         snd (get_display_background s) = Return (Some frame) ->
         exists bg,
           background_surface s = Some bg
           /\ (frame = pygame.smoothscale bg size
               \/ exists prev alpha,
                    previous_background s = Some prev
                    /\ (0 <= alpha <= 255)%Z
                    /\ frame = pygame.blit
                                 (pygame.blit (pygame.Surface_new size)
                                    (pygame.smoothscale prev size))
                                 (pygame.set_alpha (pygame.smoothscale bg size)
                                    alpha)).
Proof.
  intros cfg dw dh ops Hpos s size.
  destruct (display_inv_reach cfg dw dh ops Hpos) as (Hc & Hp & _).
  fold s in Hc, Hp. split; [exact Hp|].
  intros frame. unfold get_display_background. fold size.
  destruct (background_surface s) as [bg|]; [|discriminate]. cbn.
  destruct (previous_background s) as [prev|].
  - destruct (Qltb (transition_progress s) 1) eqn:El.
    + destruct (Qeq_bool _ _) eqn:Ez; [discriminate|]. cbn.
      intro H. injection H as <-. exists bg. split; [reflexivity|].
      right. eexists. eexists. split; [reflexivity|]. split; [|reflexivity].
      rewrite Hc.
      assert (Hd : 0 < 1 / (display_fps cfg * animation_transition_duration cfg)).
      { unfold Qdiv. rewrite Qmult_1_l. apply Qinv_lt_0_compat. exact Hpos. }
      unfold py_min. destruct (Qltb (_ + _) 1) eqn:Em.
      * apply Qltb_lt in Em. apply py_int_alpha; lra.
      * apply py_int_alpha; lra.
    + intro H. injection H as <-. exists bg. auto.
  - intro H. injection H as <-. exists bg. auto.
Qed.

Lemma frame_alpha_in_range_witness :
  0 <= transition_progress
         (fold_left exec
            [UpdateBackground sample_image; QueueBackgroundUpdate sample_image;
             ApplyPendingUpdates; GetDisplayBackground]
            (init sample_config 1920 1080)) <= 1.
Proof.
  apply (frame_alpha_in_range sample_config 1920 1080
           [UpdateBackground sample_image; QueueBackgroundUpdate sample_image;
            ApplyPendingUpdates; GetDisplayBackground]).
  reflexivity.
Defined.

(** X9.  In every state reached from a fresh surface manager, a previous
    background is there only together with a current one; so
    [get_display_background] answers [None] only as long as no image has
    been adopted, and then there is nothing to fade from either. *)
Theorem previous_needs_current :
  forall (cfg : Config) (dw dh : Z) (ops : list Op),
    let s := fold_left exec ops (init cfg dw dh) in
    (background_surface s = None -> previous_background s = None)
    /\ (snd (get_display_background s) = Return None <->
        background_surface s = None).
Proof.
  intros cfg dw dh ops s.
  assert (Hinv : forall x,
             (background_surface x = None -> previous_background x = None) ->
             background_surface (fold_left exec ops x) = None ->
             previous_background (fold_left exec ops x) = None).
  { induction ops as [|o ops IH]; intros x Hx; cbn; [exact Hx|].
    apply IH. destruct o as [img| |img|]; cbn.
    - exact Hx.
    - unfold apply_pending_updates.
      destruct (pending_background x); [|exact Hx].
      unfold update_background. destruct (background_surface x); cbn; discriminate.
    - unfold update_background. destruct (background_surface x); cbn; discriminate.
    - destruct (get_display_background_frame x) as (_ & _ & _ & H4 & H5 & _).
      cbv zeta in *. rewrite H4, H5. exact Hx. }
  split.
  - apply Hinv. reflexivity.
  - unfold get_display_background.
    destruct (background_surface s) as [bg|]; cbn; [|split; reflexivity].
    split; [|discriminate].
    destruct (previous_background s); [|discriminate].
    destruct (Qltb _ _); [|discriminate].
    destruct (Qeq_bool _ _); discriminate.
Qed.

Lemma previous_needs_current_witness :
  previous_background (fold_left exec [GetDisplayBackground] sample_manager) = None.
Proof.
  apply (proj1 (previous_needs_current sample_config 1920 1080
                  [GetDisplayBackground])).
  reflexivity.
Defined.

End DisplayExtras.

(** ** The simplified pipeline *)

Section SynthesiserExtras.

Import SimplifiedDiffusionPipeline.

(** X10.  What [generate] can return.  On an initialised pipeline with render
    dimensions that are not negative, and the debug block in front of the
    [try] not raising, [generate] returns either the first image of a call
    of the pipeline that was given the seed drawn, the render dimensions
    and, on the cpu, at most 20 steps, together with that seed; or the
    solid gray image with seed 0.  In debug mode the gray image is also
    what it returns when the pipeline produced an image but the debug copy
    of it could not be written. *)
Theorem generate_outcomes :
  forall (self : t) (p : Pipe) (env : Env) (image : option PIL.Image)
         (prompt : string),
    pipe self = Some p ->
    (0 <= render_width (config self))%Z ->
    (0 <= render_height (config self))%Z ->
    debug_dump self env image = Return tt ->
    let width := render_width (config self) in
    let height := render_height (config self) in
    let gray := PIL.solid "RGB" (width, height) (30, 30, 30)%Z in
    (generate self env image prompt = Return (gray, 0%Z)
     \/ exists seed first rest,
          randint env = Return seed
          /\ p {| call_prompt := prompt;
                  call_negative_prompt := prompts_negative_prompt (config self);
                  call_num_inference_steps :=
                    (if String.eqb (device self) "cpu"
                     then Z.min (inference_steps self) 20
                     else inference_steps self);
                  call_guidance_scale := guidance_scale self;
                  call_seed := seed;
                  call_height := height;
                  call_width := width |} = Return (first :: rest)
          /\ generate self env image prompt = Return (first, seed))
    /\ (debug self = true ->
        forall e, save_generated env = Raise e ->
                  generate self env image prompt = Return (gray, 0%Z)).
Proof.
  intros self p env image prompt Hp Hw Hh Hdump width height gray.
  assert (Hfb : fallback width height = Return (gray, 0%Z)).
  { unfold fallback, PIL.new. cbn [fst snd].
    destruct (Z.ltb_spec width 0); [unfold width in *; lia|].
    destruct (Z.ltb_spec height 0); [unfold height in *; lia|].
    reflexivity. }
  assert (Hgen : generate self env image prompt
                 = try_except (generation_step self p env prompt width height)
                              (fun _ => fallback width height)).
  { unfold generate. rewrite Hp, Hdump. reflexivity. }
  rewrite Hgen. unfold generation_step. split.
  - destruct (randint env) as [seed|e]; cbn; [|left; exact Hfb].
    destruct (p _) as [[|first rest]|e] eqn:Ecall; cbn.
    + destruct (debug self); cbn; left; exact Hfb.
    + destruct (debug self); cbn.
      * destruct (save_generated env) as [[]|e]; cbn; [|left; exact Hfb].
        right. exists seed, first, rest. auto.
      * right. exists seed, first, rest. auto.
    + left. exact Hfb.
  - intros Hdbg e Hsave. rewrite Hdbg.
    destruct (randint env) as [seed|e1]; cbn; [|exact Hfb].
    destruct (p _) as [[|first rest]|e2]; cbn; [exact Hfb| |exact Hfb].
    rewrite Hsave. cbn. exact Hfb.
Qed.

Lemma generate_outcomes_witness :
  generate debug_pipeline unwritable_env None "a cozy Ghibli cottage"
  = Return (PIL.solid "RGB" (512, 512)%Z (30, 30, 30)%Z, 0%Z).
Proof.
  assert (Hw : (0 <= render_width (config debug_pipeline))%Z) by (cbn; lia).
  assert (Hh : (0 <= render_height (config debug_pipeline))%Z) by (cbn; lia).
  destruct (generate_outcomes debug_pipeline working_pipe unwritable_env None
              "a cozy Ghibli cottage" eq_refl Hw Hh eq_refl) as [_ H].
  apply (H eq_refl (OtherError "FileNotFoundError")). reflexivity.
Defined.

End SynthesiserExtras.

(** ** The prompt generator *)

Section PromptExtras.

Import PromptGenerator.

Lemma choice_In (draw : nat) (seq : list string) :
  seq <> [] -> In (choice draw seq) seq.
Proof.
  intro H. unfold choice. apply nth_In. apply Nat.mod_upper_bound.
  destruct seq; [contradiction | discriminate].
Qed.

Lemma capped_magnitude_below (x c : Q) :
  c < 10 -> Qltb (py_min 10 x) c = Qltb x c.
Proof.
  intro Hc. unfold py_min. destruct (Qltb x 10) eqn:E; [reflexivity|].
  apply Qltb_ge in E.
  destruct (Qltb 10 c) eqn:E1; [apply Qltb_lt in E1; lra|].
  destruct (Qltb x c) eqn:E2; [apply Qltb_lt in E2; lra | reflexivity].
Qed.

Lemma half_below (x c : Q) : Qltb (x / 2) c = Qltb x (2 * c).
Proof.
  assert (H : x / 2 < c <-> x < 2 * c).
  { assert (Hx : x == 2 * (x / 2)) by field.
    set (y := x / 2) in *. clearbody y. split; intro; lra. }
  destruct (Qltb (x / 2) c) eqn:E1; destruct (Qltb x (2 * c)) eqn:E2;
    try reflexivity.
  - apply Qltb_lt in E1. apply H in E1. apply Qltb_lt in E1. congruence.
  - apply Qltb_lt in E2. apply H in E2. apply Qltb_lt in E2. congruence.
Qed.

(** X11.  Which base prompt a snapshot gets.  The direction is the sign of
    [price_change]; the strength is read from the absolute percentage
    change alone, with the steps at 6 and at 14 percent (magnitude 3 and
    7), the cap of the magnitude at 10 having no effect on the choice.  A
    snapshot with [price_change] zero gets a "stable" prompt whatever its
    percentage says. *)
Theorem base_prompt_by_movement :
  forall (rand : Random) (d : StockData),
    let pct := Qabs (price_change_pct d) in
    let base := base_prompt rand (Some d) in
    (0 < price_change d ->
       (pct < 6 -> In base small_rise)
       /\ (6 <= pct -> pct < 14 -> In base medium_rise)
       /\ (14 <= pct -> In base large_rise))
    /\ (price_change d < 0 ->
          (pct < 6 -> In base small_fall)
          /\ (6 <= pct -> pct < 14 -> In base medium_fall)
          /\ (14 <= pct -> In base large_fall))
    /\ (price_change d == 0 -> In base stable).
Proof.
  intros rand d pct base. unfold base, base_prompt.
  assert (H3 : Qltb (py_min 10 (pct / 2)) 3 = Qltb pct 6).
  { rewrite capped_magnitude_below by reflexivity. rewrite half_below.
    reflexivity. }
  assert (H7 : Qltb (py_min 10 (pct / 2)) 7 = Qltb pct 14).
  { rewrite capped_magnitude_below by reflexivity. rewrite half_below.
    reflexivity. }
  fold pct. split; [|split].
  - intro Hup. apply Qltb_lt in Hup. rewrite Hup. cbn [orb].
    unfold _get_rising_prompt. rewrite H3, H7.
    split; [|split].
    + intro H. apply Qltb_lt in H. rewrite H. apply choice_In. discriminate.
    + intros Ha Hb. apply Qltb_ge in Ha. apply Qltb_lt in Hb. rewrite Ha, Hb.
      apply choice_In. discriminate.
    + intro Ha. assert (Hb : 6 <= pct) by lra.
      apply Qltb_ge in Ha, Hb. rewrite Ha, Hb. apply choice_In. discriminate.
  - intro Hdown.
    assert (Hup : Qltb 0 (price_change d) = false) by (apply Qltb_ge; lra).
    apply Qltb_lt in Hdown. rewrite Hup, Hdown. cbn [orb].
    unfold _get_falling_prompt. rewrite H3, H7.
    split; [|split].
    + intro H. apply Qltb_lt in H. rewrite H. apply choice_In. discriminate.
    + intros Ha Hb. apply Qltb_ge in Ha. apply Qltb_lt in Hb. rewrite Ha, Hb.
      apply choice_In. discriminate.
    + intro Ha. assert (Hb : 6 <= pct) by lra.
      apply Qltb_ge in Ha, Hb. rewrite Ha, Hb. apply choice_In. discriminate.
  - intro Hz.
    assert (Hup : Qltb 0 (price_change d) = false) by (apply Qltb_ge; lra).
    assert (Hdown : Qltb (price_change d) 0 = false) by (apply Qltb_ge; lra).
    rewrite Hup, Hdown. apply choice_In. discriminate.
Qed.

Lemma base_prompt_by_movement_witness :
  In (base_prompt sample_random (Some sample_data)) small_rise
  /\ In (base_prompt sample_random (Some crash_data)) large_fall.
Proof.
  destruct (base_prompt_by_movement sample_random sample_data) as (Hup & _).
  destruct (base_prompt_by_movement sample_random crash_data) as (_ & Hdown & _).
  split.
  - apply Hup; vm_compute; reflexivity.
  - apply Hdown; [vm_compute; reflexivity | vm_compute; discriminate].
Defined.



End PromptExtras.

(** ** Colours *)

Section ColourExtras.

Import ChartRenderer.

Lemma byte_fields_ok : forallb byte_field_ok (seq 0 256) = true.
Proof. vm_compute. reflexivity. Qed.

Lemma format_02x_byte (z : Z) :
  (0 <= z <= 255)%Z ->
  exists a b,
    format_02x z = String a (String b EmptyString)
    /\ HexString.Raw.to_N (String a (String b EmptyString)) 0 = Z.to_N z.
Proof.
  intro Hz.
  assert (Hin : In (Z.to_nat z) (seq 0 256)) by (apply in_seq; lia).
  pose proof (proj1 (forallb_forall _ _) byte_fields_ok _ Hin) as H.
  unfold byte_field_ok in H. rewrite Z2Nat.id in H by lia.
  destruct (format_02x z) as [|a [|b [|c s]]]; try discriminate.
  exists a, b. split; [reflexivity|].
  apply N.eqb_eq in H. rewrite H. rewrite Z_nat_N. reflexivity.
Qed.

(** X13.  [_rgb_to_hex] on a colour whose components are bytes: the result has
    seven characters, a [#] and three fields of two hexadecimal digits,
    and each field read as a hexadecimal number is the component it was
    made of; two colours with the same result are therefore the same. *)
Theorem rgb_to_hex_bytes :
  forall r g b : Z,
    (0 <= r <= 255)%Z -> (0 <= g <= 255)%Z -> (0 <= b <= 255)%Z ->
    let s := _rgb_to_hex (r, g, b) in
    String.length s = 7%nat
    /\ String.get 0 s = Some "#"%char
    /\ HexString.Raw.to_N (String.substring 1 2 s) 0 = Z.to_N r
    /\ HexString.Raw.to_N (String.substring 3 2 s) 0 = Z.to_N g
    /\ HexString.Raw.to_N (String.substring 5 2 s) 0 = Z.to_N b
    /\ forall r' g' b' : Z,
         (0 <= r' <= 255)%Z -> (0 <= g' <= 255)%Z -> (0 <= b' <= 255)%Z ->
         _rgb_to_hex (r', g', b') = s -> (r', g', b') = (r, g, b).
Proof.
  intros r g b Hr Hg Hb s.
  assert (Hfields : forall x y z : Z,
             (0 <= x <= 255)%Z -> (0 <= y <= 255)%Z -> (0 <= z <= 255)%Z ->
             let t := _rgb_to_hex (x, y, z) in
             String.length t = 7%nat
             /\ String.get 0 t = Some "#"%char
             /\ HexString.Raw.to_N (String.substring 1 2 t) 0 = Z.to_N x
             /\ HexString.Raw.to_N (String.substring 3 2 t) 0 = Z.to_N y
             /\ HexString.Raw.to_N (String.substring 5 2 t) 0 = Z.to_N z).
  { intros x y z Hx Hy Hz.
    destruct (format_02x_byte x Hx) as (a1 & b1 & E1 & V1).
    destruct (format_02x_byte y Hy) as (a2 & b2 & E2 & V2).
    destruct (format_02x_byte z Hz) as (a3 & b3 & E3 & V3).
    cbv zeta. unfold _rgb_to_hex. rewrite E1, E2, E3.
    cbn [String.append String.length String.get String.substring].
    rewrite V1, V2, V3. auto. }
  destruct (Hfields r g b Hr Hg Hb) as (H1 & H2 & H3 & H4 & H5).
  fold s in H1, H2, H3, H4, H5.
  repeat (split; [assumption|]).
  intros r' g' b' Hr' Hg' Hb' Heq.
  destruct (Hfields r' g' b' Hr' Hg' Hb') as (_ & _ & H3' & H4' & H5').
  cbv zeta in H3', H4', H5'. rewrite Heq in H3', H4', H5'.
  rewrite H3 in H3'. rewrite H4 in H4'. rewrite H5 in H5'.
  f_equal; [f_equal|]; lia.
Qed.

Lemma rgb_to_hex_bytes_witness :
  String.length (_rgb_to_hex (30, 144, 255)%Z) = 7%nat
  /\ HexString.Raw.to_N (String.substring 3 2 (_rgb_to_hex (30, 144, 255)%Z)) 0
     = 144%N.
Proof.
  assert (H1 : (0 <= 30 <= 255)%Z) by lia.
  assert (H2 : (0 <= 144 <= 255)%Z) by lia.
  assert (H3 : (0 <= 255 <= 255)%Z) by lia.
  destruct (rgb_to_hex_bytes 30 144 255 H1 H2 H3) as (Hlen & _ & _ & Hg & _).
  split; [exact Hlen | exact Hg].
Defined.

(** X14.  The overlay, the chart and the prompt generator classify a snapshot
    by the sign of [price_change] alone and agree with each other: a rise
    gives green text, the "up" colour on the chart and a rising prompt; a
    fall gives red, "down" and a falling prompt; no change gives white,
    "neutral" and a stable prompt. *)
Theorem movement_classified_alike :
  forall (d : StockData) (o : StockInfoOverlay.t) (colors : ChartColors)
         (rand : PromptGenerator.Random),
    StockInfoOverlay.stock_data o = Some d ->
    let text := StockInfoOverlay._get_price_color o in
    let chart := annotation_color colors d in
    let base := PromptGenerator.base_prompt rand (Some d) in
    (0 < price_change d ->
       text = (0, 255, 0)%Z /\ chart = _rgb_to_hex (up colors)
       /\ In base (PromptGenerator.small_rise ++ PromptGenerator.medium_rise
                   ++ PromptGenerator.large_rise))
    /\ (price_change d < 0 ->
          text = (255, 0, 0)%Z /\ chart = _rgb_to_hex (down colors)
          /\ In base (PromptGenerator.small_fall ++ PromptGenerator.medium_fall
                      ++ PromptGenerator.large_fall))
    /\ (price_change d == 0 ->
          text = (255, 255, 255)%Z /\ chart = _rgb_to_hex (neutral colors)
          /\ In base PromptGenerator.stable).
Proof.
  intros d o colors rand Ho. cbv zeta.
  unfold StockInfoOverlay._get_price_color, annotation_color,
    PromptGenerator.base_prompt. rewrite Ho.
  split; [|split].
  - intro Hup. apply Qltb_lt in Hup. rewrite Hup. cbn [orb].
    split; [reflexivity|]. split; [reflexivity|].
    unfold PromptGenerator._get_rising_prompt.
    destruct (Qltb _ 3); [|destruct (Qltb _ 7)]; rewrite !in_app_iff;
      [left | right; left | right; right]; apply choice_In; discriminate.
  - intro Hdown.
    assert (Hup : Qltb 0 (price_change d) = false) by (apply Qltb_ge; lra).
    apply Qltb_lt in Hdown. rewrite Hup, Hdown. cbn [orb].
    split; [reflexivity|]. split; [reflexivity|].
    unfold PromptGenerator._get_falling_prompt.
    destruct (Qltb _ 3); [|destruct (Qltb _ 7)]; rewrite !in_app_iff;
      [left | right; left | right; right]; apply choice_In; discriminate.
  - intro Hz.
    assert (Hup : Qltb 0 (price_change d) = false) by (apply Qltb_ge; lra).
    assert (Hdown : Qltb (price_change d) 0 = false) by (apply Qltb_ge; lra).
    rewrite Hup, Hdown. split; [reflexivity|]. split; [reflexivity|].
    apply choice_In. discriminate.
Qed.

Lemma movement_classified_alike_witness :
  StockInfoOverlay._get_price_color
    (StockInfoOverlay.update_stock_info (Some crash_data) StockInfoOverlay.init)
  = (255, 0, 0)%Z.
Proof.
  destruct (movement_classified_alike crash_data
              (StockInfoOverlay.update_stock_info (Some crash_data)
                 StockInfoOverlay.init)
              {| up := (0, 255, 0)%Z; down := (255, 0, 0)%Z;
                 neutral := (255, 255, 255)%Z |}
              sample_random eq_refl) as (_ & Hdown & _).
  apply Hdown. vm_compute. reflexivity.
Defined.

End ColourExtras.

(** ** The data source *)

Section FetchExtras.

Import YahooFinance.





End FetchExtras.

(** ** The staged loop of main_fixed.py *)

Section StagedLoop.

Import MainFixed.

Lemma handle_event_inv (s s' : t) (e : Event) :
  stage_inv s -> handle_event s e = Return s' -> stage_inv s'.
Proof.
  unfold stage_inv. intros Hinv H.
  destruct e as [| | |now|load|]; cbn in H.
  - injection H as <-. exact Hinv.
  - injection H as <-. exact Hinv.
  - injection H as <-. destruct (debug s); exact Hinv.
  - injection H as <-.
    destruct (is_updating s) eqn:E; cbn; [rewrite E; exact Hinv | reflexivity].
  - destruct (is_updating s) eqn:E; cbn in H.
    + injection H as <-. rewrite E. exact Hinv.
    + destruct (negb (no_ai s)); cbn in H.
      * injection H as <-. cbn. rewrite E. exact Hinv.
      * destruct (negb (ai_loaded s)); cbn in H.
        -- destruct load as [[]|x]; cbn in H; [|discriminate].
           injection H as <-. cbn. rewrite E. exact Hinv.
        -- injection H as <-. cbn. rewrite E. exact Hinv.
  - injection H as <-. exact Hinv.
Qed.

Lemma handle_events_inv (es : list Event) :
  forall s s', stage_inv s -> handle_events s es = Return s' -> stage_inv s'.
Proof.
  induction es as [|e es IH]; intros s s' Hinv H; cbn in H.
  - injection H as <-. exact Hinv.
  - destruct (handle_event s e) as [s1|x] eqn:E; cbn in H; [|discriminate].
    eapply IH; [|exact H]. eapply handle_event_inv; eauto.
Qed.

Lemma periodic_check_inv (now : Q) (s : t) :
  stage_inv s -> stage_inv (periodic_check now s).
Proof.
  unfold stage_inv, periodic_check. intro Hinv.
  destruct (negb (is_updating s) && _); [reflexivity | exact Hinv].
Qed.

Lemma stage_try_rank (env : Env) (s s' : t) :
  update_stage s <> idle ->
  stage_try env s = Return s' ->
  is_updating s' = (if is_idle (update_stage s') then false else is_updating s)
  /\ (rank (update_stage s') < rank (update_stage s))%nat
  /\ last_update_time s' = last_update_time s
  /\ running s' = running s.
Proof.
  intros Hne H. unfold stage_try in H.
  destruct (update_stage s) eqn:Es; try contradiction.
  - destruct (StockFetcher.fetch_data _ _) as [f [d|]]; injection H as <-;
      cbn; repeat split; lia.
  - destruct (do_render_chart env (stock_data s)) as [chart|x]; cbn in H;
      [|discriminate].
    destruct (no_ai s); injection H as <-; cbn; cbn;
      repeat split; lia.
  - destruct (ai_loaded s); [|discriminate].
    destruct (do_generate_prompt env (stock_data s)) as [p|x]; cbn in H;
      [|discriminate].
    injection H as <-. cbn. repeat split; lia.
  - destruct (ai_loaded s); [|discriminate].
    destruct (do_generate env (chart_surface s) (prompt s)) as [[image seed]|x];
      cbn in H; [|discriminate].
    injection H as <-. cbn. repeat split; lia.
  - injection H as <-. cbn. repeat split; lia.
Qed.

Lemma process_stage_inv (env : Env) (s : t) :
  stage_inv s -> stage_inv (process_stage env s).
Proof.
  unfold stage_inv, process_stage. intro Hinv.
  destruct (is_updating s) eqn:Eu; [|rewrite Eu; exact Hinv].
  assert (Hne : update_stage s <> idle).
  { intro Hi. rewrite Hi in Hinv. discriminate. }
  destruct (stage_try env s) as [s'|x] eqn:E; [|reflexivity].
  destruct (stage_try_rank env s s' Hne E) as (H1 & _).
  rewrite H1, Eu. destruct (is_idle (update_stage s')); reflexivity.
Qed.

Lemma render_frame (s s' : t) :
  render s = Return s' ->
  is_updating s' = is_updating s /\ update_stage s' = update_stage s
  /\ running s' = running s /\ last_update_time s' = last_update_time s.
Proof.
  unfold render. intro H. destruct (renders s).
  - destruct (SurfaceManager.get_display_background _) as [m [r|x]];
      [|discriminate].
    injection H as <-. cbn. auto.
  - injection H as <-. auto.
Qed.

Lemma tick_inv (k : Tick) (s s' : t) :
  stage_inv s -> tick k s = Return s' -> stage_inv s'.
Proof.
  intros Hinv H. unfold tick in H.
  destruct (handle_events s (events k)) as [s1|x] eqn:E; cbn in H;
    [|discriminate].
  apply render_frame in H as (H1 & H2 & _).
  unfold stage_inv. rewrite H1, H2.
  apply process_stage_inv, periodic_check_inv.
  eapply handle_events_inv; eauto.
Qed.

Lemma loop_inv (ks : list Tick) :
  forall s s', stage_inv s -> loop ks s = Return s' -> stage_inv s'.
Proof.
  induction ks as [|k ks IH]; intros s s' Hinv H; cbn in H.
  - injection H as <-. exact Hinv.
  - destruct (running s); [|injection H as <-; exact Hinv].
    destruct (tick k s) as [s1|x] eqn:E; cbn in H; [|discriminate].
    eapply IH; [|exact H]. eapply tick_inv; eauto.
Qed.

(** X17.  In the staged loop the flag [is_updating] is up exactly while
    [update_stage] is not "idle", at the start of every iteration; and in
    every iteration the guard of the rendering block
    ([not is_updating or update_stage != "idle"]) is true, so a frame is
    drawn in each iteration, during an update as well. *)
Theorem staged_loop_always_renders :
  forall (cfg : Config) (dbg ai_off : bool) (dw dh : Z) (ks : list Tick) (s : t),
    loop ks (init cfg dbg ai_off dw dh) = Return s ->
    stage_inv s
    /\ forall (k : Tick) (s1 : t),
         handle_events s (events k) = Return s1 ->
         renders (process_stage (env k) (periodic_check (current_time k) s1))
         = true.
Proof.
  intros cfg dbg ai_off dw dh ks s Hloop.
  assert (Hinv : stage_inv s).
  { eapply loop_inv; [|exact Hloop]. reflexivity. }
  split; [exact Hinv|].
  intros k s1 Hev.
  assert (H : stage_inv (process_stage (env k)
                           (periodic_check (current_time k) s1))).
  { apply process_stage_inv, periodic_check_inv.
    eapply handle_events_inv; eauto. }
  unfold renders. rewrite H.
  destruct (is_idle _); reflexivity.
Qed.

Lemma staged_loop_always_renders_witness :
  exists s,
    loop [sample_tick [K_r 10] 11; sample_tick [K_n (Return tt); QUIT] 12;
          sample_tick [] 13]
      staged_world = Return s
    /\ stage_inv s.
Proof.
  eexists. split.
  - vm_compute. reflexivity.
  - eapply (staged_loop_always_renders sample_config false false 1920 1080
              [sample_tick [K_r 10] 11; sample_tick [K_n (Return tt); QUIT] 12;
               sample_tick [] 13]).
    vm_compute. reflexivity.
Defined.

Lemma handle_event_busy (s s' : t) (e : Event) :
  is_updating s = true ->
  handle_event s e = Return s' ->
  is_updating s' = true
  /\ update_stage s' = update_stage s
  /\ last_update_time s' = last_update_time s
  /\ no_ai s' = no_ai s
  /\ ai_loaded s' = ai_loaded s
  /\ surface_manager s' = surface_manager s
  /\ stock_fetcher s' = stock_fetcher s.
Proof.
  intros Hb H. destruct e as [| | |now|load|]; cbn in H.
  - injection H as <-. cbn. auto 10.
  - injection H as <-. cbn. auto 10.
  - injection H as <-. destruct (debug s); cbn; auto 10.
  - rewrite Hb in H. injection H as <-. auto 10.
  - rewrite Hb in H. injection H as <-. auto 10.
  - injection H as <-. auto 10.
Qed.

(** X18.  While an update is in progress the keys do not interfere: whatever
    events arrive in an iteration, refresh and generation-toggle keys
    included, the stage, the time of the last update, the generation switch,
    the surface manager and the fetcher are as before and the flag stays
    up; the periodic check that follows changes nothing either. *)
Theorem staged_update_not_preempted :
  forall (es : list Event) (s s' : t) (now : Q),
    is_updating s = true ->
    handle_events s es = Return s' ->
    is_updating s' = true
    /\ update_stage s' = update_stage s
    /\ last_update_time s' = last_update_time s
    /\ no_ai s' = no_ai s
    /\ surface_manager s' = surface_manager s
    /\ stock_fetcher s' = stock_fetcher s
    /\ periodic_check now s' = s'.
Proof.
  induction es as [|e es IH]; intros s s' now Hb H; cbn in H.
  - injection H as <-. unfold periodic_check. rewrite Hb. cbn. auto 10.
  - destruct (handle_event s e) as [s1|x] eqn:E; cbn in H; [|discriminate].
    destruct (handle_event_busy s s1 e Hb E)
      as (H1 & H2 & H3 & H4 & _ & H6 & H7).
    destruct (IH s1 s' now H1 H) as (G1 & G2 & G3 & G4 & G5 & G6 & G7).
    rewrite G2, G3, G4, G5, G6, H2, H3, H4, H6, H7. auto 10.
Qed.

Lemma staged_update_not_preempted_witness :
  exists s',
    handle_events (set_timing staged_world true render_chart 5)
      [K_r 100; K_n (Return tt); K_f; OtherEvent] = Return s'
    /\ last_update_time s' = 5 /\ update_stage s' = render_chart.
Proof.
  eexists. split; [reflexivity|].
  destruct (staged_update_not_preempted
              [K_r 100; K_n (Return tt); K_f; OtherEvent]
              (set_timing staged_world true render_chart 5) _ 100
              eq_refl eq_refl) as (_ & H2 & H3 & _).
  split; [exact H3 | exact H2].
Defined.

Lemma staged_update_busy_aux (es : list Event) :
  forall (s s' : t) (now : Q),
    is_updating s = true ->
    handle_events s es = Return s' ->
    is_updating s' = true
    /\ update_stage s' = update_stage s
    /\ periodic_check now s' = s'.
Proof.
  induction es as [|e es IH]; intros s s' now Hb H; cbn in H.
  - injection H as <-. unfold periodic_check. rewrite Hb. cbn. auto.
  - destruct (handle_event s e) as [s1|x] eqn:E; cbn in H; [|discriminate].
    destruct (handle_event_busy s s1 e Hb E) as (H1 & H2 & _).
    destruct (IH s1 s' now H1 H) as (G1 & G2 & G3).
    rewrite G2, H2. auto.
Qed.

Lemma tick_rank (k : Tick) (s s' : t) :
  stage_inv s -> is_updating s = true -> tick k s = Return s' ->
  (rank (update_stage s') < rank (update_stage s))%nat.
Proof.
  intros Hinv Hb H. unfold tick in H.
  destruct (handle_events s (events k)) as [s1|x] eqn:E; cbn in H;
    [|discriminate].
  destruct (staged_update_busy_aux (events k) s s1 (current_time k) Hb E)
    as (H1 & H2 & H7).
  rewrite H7 in H. apply render_frame in H as (_ & Hst & _).
  rewrite Hst, <- H2.
  assert (Hne : update_stage s1 <> idle).
  { intro Hi. unfold stage_inv in Hinv. rewrite Hb, <- H2, Hi in Hinv.
    discriminate. }
  unfold process_stage. rewrite H1.
  destruct (stage_try (env k) s1) as [s2|x] eqn:Et.
  - apply (stage_try_rank (env k) s1 s2 Hne Et).
  - cbn. destruct (update_stage s1); try contradiction; cbn; lia.
Qed.

Lemma rank_le_5 (st : Stage) : (rank st <= 5)%nat.
Proof. destruct st; cbn; lia. Qed.

Lemma loop_completes (n : nat) :
  forall (s s' : t) (ks : list Tick),
    stage_inv s -> (rank (update_stage s) <= n)%nat ->
    (n <= List.length ks)%nat ->
    loop ks s = Return s' -> running s' = true ->
    exists ks1 ks2 s1,
      ks = ks1 ++ ks2 /\ (List.length ks1 <= n)%nat
      /\ loop ks1 s = Return s1 /\ is_updating s1 = false.
Proof.
  induction n as [|n IH]; intros s s' ks Hinv Hr Hlen Hloop Hrun.
  - exists [], ks, s. repeat split; auto.
    unfold stage_inv in Hinv. rewrite Hinv.
    destruct (update_stage s); cbn in *; first [reflexivity | lia].
  - destruct (is_updating s) eqn:Hb.
    + destruct ks as [|k ks]; [cbn in Hlen; lia|]. cbn in Hloop.
      destruct (running s) eqn:Hrs;
        [|injection Hloop as <-; congruence].
      destruct (tick k s) as [s1|x] eqn:Et; cbn in Hloop; [|discriminate].
      pose proof (tick_rank k s s1 Hinv Hb Et) as Hlt.
      destruct (IH s1 s' ks (tick_inv k s s1 Hinv Et)) as (ks1 & ks2 & s2 & E1 & E2 & E3 & E4);
        [lia | cbn in Hlen; lia | exact Hloop | exact Hrun |].
      exists (k :: ks1), ks2, s2. repeat split.
      * cbn. rewrite E1. reflexivity.
      * cbn. lia.
      * cbn. rewrite Hrs, Et. cbn. exact E3.
      * exact E4.
    + exists [], ks, s. repeat split; auto. cbn. lia.
Qed.

(** X19.  An update is over within five iterations.  Each iteration in which
    the flag is up at the start moves [update_stage] at least one step
    towards "idle"; so in any run of the loop of five iterations or more
    that does not quit, starting anywhere after the loop was entered, the
    flag is down at the start of one of the first six iterations. *)
Theorem staged_update_completes :
  forall (cfg : Config) (dbg ai_off : bool) (dw dh : Z)
         (ks0 ks : list Tick) (s s' : t),
    loop ks0 (init cfg dbg ai_off dw dh) = Return s ->
    (5 <= List.length ks)%nat ->
    loop ks s = Return s' ->
    running s' = true ->
    (forall k s1, is_updating s = true -> tick k s = Return s1 ->
                  (rank (update_stage s1) < rank (update_stage s))%nat)
    /\ exists ks1 ks2 s1,
         ks = ks1 ++ ks2 /\ (List.length ks1 <= 5)%nat
         /\ loop ks1 s = Return s1 /\ is_updating s1 = false.
Proof.
  intros cfg dbg ai_off dw dh ks0 ks s s' H0 Hlen Hloop Hrun.
  assert (Hinv : stage_inv s) by (eapply loop_inv; [|exact H0]; reflexivity).
  split.
  - intros k s1 Hb Ht. exact (tick_rank k s s1 Hinv Hb Ht).
  - exact (loop_completes 5 s s' ks Hinv (rank_le_5 _) Hlen Hloop Hrun).
Qed.

Lemma staged_update_completes_witness :
  exists ks1 ks2 s1,
    [sample_tick [] 21; sample_tick [] 22; sample_tick [] 23;
     sample_tick [] 24; sample_tick [] 25]
    = ks1 ++ ks2
    /\ loop ks1 started_world = Return s1 /\ is_updating s1 = false.
Proof.
  assert (Hend : exists s',
             loop [sample_tick [] 21; sample_tick [] 22; sample_tick [] 23;
                   sample_tick [] 24; sample_tick [] 25] started_world
             = Return s' /\ running s' = true).
  { vm_compute. eexists. split; reflexivity. }
  destruct Hend as (s' & Hloop & Hrun).
  assert (Hstart : loop [sample_tick [K_r 10] 11]
                     (init sample_config false false 1920 1080)
                   = Return started_world).
  { vm_compute. reflexivity. }
  assert (Hlen : (5 <= List.length
                         [sample_tick [] 21; sample_tick [] 22;
                          sample_tick [] 23; sample_tick [] 24;
                          sample_tick [] 25])%nat) by (cbn; lia).
  destruct (staged_update_completes sample_config false false 1920 1080
              [sample_tick [K_r 10] 11]
              [sample_tick [] 21; sample_tick [] 22; sample_tick [] 23;
               sample_tick [] 24; sample_tick [] 25]
              started_world s' Hstart Hlen Hloop Hrun)
    as (_ & ks1 & ks2 & s1 & H1 & _ & H3 & H4).
  exists ks1, ks2, s1. auto.
Defined.

(** X20.  The background is replaced only by the stage that completes the
    update: processing a stage either leaves the surface manager as it is,
    or hands it one new image and moves to "done"; a stage that raises
    leaves it as it is. *)
Theorem staged_background_replaced_on_completion :
  forall (env : Env) (s : t),
    surface_manager (process_stage env s) = surface_manager s
    \/ (update_stage (process_stage env s) = done
        /\ exists image,
             surface_manager (process_stage env s)
             = SurfaceManager.update_background image (surface_manager s)).
Proof.
  intros env s. unfold process_stage.
  destruct (is_updating s); [|left; reflexivity].
  unfold stage_try. destruct (update_stage s).
  - left. reflexivity.
  - left. destruct (StockFetcher.fetch_data _ _) as [f [d|]]; reflexivity.
  - destruct (do_render_chart env (stock_data s)) as [chart|x]; cbn;
      [|left; reflexivity].
    destruct (no_ai s); cbn; [|left; reflexivity].
    right. split; [reflexivity|]. eexists. reflexivity.
  - left. destruct (ai_loaded s); [|reflexivity].
    destruct (do_generate_prompt env (stock_data s)); reflexivity.
  - destruct (ai_loaded s); [|left; reflexivity].
    destruct (do_generate env (chart_surface s) (prompt s))
      as [[image seed]|x]; cbn; [|left; reflexivity].
    right. split; [reflexivity|]. eexists. reflexivity.
  - left. reflexivity.
Qed.

End StagedLoop.

(** ** The threads of main.py *)

Section MainExtras.

Import Main.

Lemma presses_count (n : nat) :
  forall s, is_updating s = false ->
            in_flight (presses n s) = (in_flight s + n)%nat
            /\ is_updating (presses n s) = false.
Proof.
  induction n as [|n IH]; intros s Hs; cbn.
  - split; [lia | exact Hs].
  - destruct (IH s Hs) as [Hc Hf]. unfold key_r. rewrite Hf. cbn.
    split; [|exact Hf]. unfold in_flight in *. cbn. rewrite Hc. lia.
Qed.

(** X21.  In main.py the flag is raised by the worker, not by the code that
    starts it: neither the key handler nor the periodic check changes
    [is_updating].  So every press of the refresh key that comes before a
    started worker has run its first statement starts one more worker:
    after [n] presses following the initial start, [n + 1] workers are in
    flight.  And a worker that finishes lowers the flag although another
    one is still in flight. *)
Theorem main_py_starts_overlap :
  (forall (s : t) (now : Q),
      is_updating (key_r s) = is_updating s
      /\ is_updating (loop_check now s) = is_updating s)
  /\ (forall (cfg : Config) (dw dh : Z) (n : nat),
         in_flight (presses n (init cfg dw dh)) = S n
         /\ is_updating (presses n (init cfg dw dh)) = false)
  /\ (forall (s : t) (k1 k2 : Worker) (rest : list Worker),
         workers s = k1 :: k2 :: rest ->
         tid k1 <> tid k2 ->
         is_updating (worker_finally (tid k1) s) = false
         /\ (1 <= in_flight (worker_finally (tid k1) s))%nat).
Proof.
  split; [|split].
  - intros s now. unfold key_r, loop_check. split.
    + destruct (negb (is_updating s)); reflexivity.
    + destruct (BackgroundUpdater.main_should_update _ _ _ _); reflexivity.
  - intros cfg dw dh n.
    destruct (presses_count n (init cfg dw dh) eq_refl) as [Hc Hf].
    split; [|exact Hf]. rewrite Hc. reflexivity.
  - intros s k1 k2 rest Hw Hne. split; [reflexivity|].
    unfold in_flight, worker_finally. cbn. rewrite Hw. cbn.
    rewrite Nat.eqb_refl. cbn.
    destruct (Nat.eqb_spec (tid k2) (tid k1)) as [E|E]; [congruence|].
    cbn. lia.
Qed.

Lemma main_py_starts_overlap_witness :
  is_updating
    (worker_finally 1
       (worker_enter 0 (worker_enter 1 (presses 1 (init sample_config 1920 1080)))))
  = false
  /\ (1 <= in_flight
            (worker_finally 1
               (worker_enter 0
                  (worker_enter 1 (presses 1 (init sample_config 1920 1080))))))%nat.
Proof.
  apply (proj2 (proj2 main_py_starts_overlap)
           (worker_enter 0 (worker_enter 1 (presses 1 (init sample_config 1920 1080))))
           {| tid := 1; phase := entered |} {| tid := 0; phase := entered |} []).
  - reflexivity.
  - cbn. lia.
Defined.

(** X22.  The [try] block of [update_visualization] changes the display all or
    nothing: either the surface manager and the overlay are as before, or
    the background has been replaced by the generated image and the
    overlay shows the snapshot used; when the block raises, they are as
    before.  The image is written to the surface manager directly: the
    pending slot is never used. *)
Theorem update_visualization_all_or_nothing :
  forall (env : Env) (s : t),
    let s' := fst (update_try env s) in
    ((surface_manager s' = surface_manager s
      /\ stock_overlay s' = stock_overlay s)
     \/ exists d chart prompt image seed,
          snd (StockFetcher.fetch_data (fetch_attempt env) (stock_fetcher s))
          = Some d
          /\ render_chart env d = Return chart
          /\ generate_prompt env d = Return prompt
          /\ generate env chart prompt = Return (image, seed)
          /\ surface_manager s'
             = SurfaceManager.update_background image (surface_manager s)
          /\ stock_overlay s'
             = StockInfoOverlay.update_stock_info (Some d) (stock_overlay s))
    /\ (forall e, snd (update_try env s) = Raise e ->
                  surface_manager s' = surface_manager s
                  /\ stock_overlay s' = stock_overlay s)
    /\ SurfaceManager.pending_background (surface_manager s')
       = SurfaceManager.pending_background (surface_manager s).
Proof.
  intros env s. cbv zeta. unfold update_try.
  destruct (StockFetcher.fetch_data (fetch_attempt env) (stock_fetcher s))
    as [f [d|]]; cbn [snd]; [|cbn; auto].
  destruct (render_chart env d) as [chart|e1] eqn:Er; cbn; [|auto].
  destruct (generate_prompt env d) as [prompt|e2] eqn:Ep; cbn; [|auto].
  destruct (generate env chart prompt) as [[image seed]|e3] eqn:Eg; cbn;
    [|auto].
  split; [|split].
  - right. exists d, chart, prompt, image, seed. auto 10.
  - intros e He. discriminate.
  - unfold SurfaceManager.update_background.
    destruct (SurfaceManager.background_surface (surface_manager s)); reflexivity.
Qed.

Lemma update_visualization_all_or_nothing_witness :
  surface_manager (fst (update_try main_fails_env (init sample_config 1920 1080)))
  = surface_manager (init sample_config 1920 1080).
Proof.
  destruct (update_visualization_all_or_nothing main_fails_env
              (init sample_config 1920 1080)) as (_ & Hraise & _).
  apply (Hraise (RuntimeError "CUDA out of memory")). reflexivity.
Defined.

End MainExtras.

(** ** Adopting an image during a transition *)

Section CrossfadeRestart.

Import SurfaceManager.



End CrossfadeRestart.
